(** * Receptive field of a stack of mocking layers (mocks.py)

    A shallow embedding of [MockLayer], [MockConv], [MockPool] and
    [MockModel].  Python integers are unbounded, hence [Z].  A Python list
    is a mutable object that several variables may alias ([MockModel]
    keeps the very list it is given and [get_as_list] hands it out again),
    so lists of layers live in a store indexed by references, and the
    methods that touch them run in a small state-and-failure monad whose
    state also carries the lines written by [print]. *)

From stdpp Require Import base option numbers list gmap strings pretty.
From Stdlib Require Import ZArith Lia Sorted Ascii.

Local Open Scope Z_scope.

(** ** Layers *)

Module MockLayer.

(** The attributes set by [MockLayer.__init__]. *)
Record t := Build {
  kernel_size : Z;
  stride : Z;
  dilation_rate : Z;
  name : string
}.

(** [MockLayer(kernel_size, stride, dilation_rate, name='')]: an omitted
    keyword argument is [None]. *)
Definition __init__ (kernel_size stride dilation_rate : Z)
    (name : option string) : t :=
  {| kernel_size := kernel_size;
     stride := stride;
     dilation_rate := dilation_rate;
     name := default "" name |}.

(** [get_as_list]: the elements of the list display [[self]]. *)
Definition get_as_list (self : t) : list t := [self].

Definition get_output_receptive_field (self : t)
    (input_receptive_field input_accumulated_stride : Z) : Z * Z :=
  let kernel_term :=
    (kernel_size self - 1) * dilation_rate self * input_accumulated_stride in
  let output_receptive_field := kernel_term + input_receptive_field in
  let output_accumulated_stride := input_accumulated_stride * stride self in
  (output_receptive_field, output_accumulated_stride).

End MockLayer.

(** [MockConv(kernel_size, stride=1, dilation_rate=1, name='')]. *)
Definition MockConv (kernel_size : Z) (stride dilation_rate : option Z)
    (name : option string) : MockLayer.t :=
  MockLayer.__init__ kernel_size (default 1 stride) (default 1 dilation_rate)
    (Some (default "" name)).

(** [MockPool(pool_size, stride=None, name='')]. *)
Definition MockPool (pool_size : Z) (stride : option Z)
    (name : option string) : MockLayer.t :=
  let stride := match stride with None => pool_size | Some s => s end in
  MockLayer.__init__ pool_size stride 1 (Some (default "" name)).

(** ** The store of list objects and the output stream *)

Definition ref := positive.

Record world := World {
  heap : gmap ref (list MockLayer.t);
  stdout : list string
}.

Definition M (A : Type) : Type := world → option (A * world).

#[global] Instance M_ret : MRet M := λ A a w, Some (a, w).

#[global] Instance M_bind : MBind M := λ A B k c w,
  match c w with
  | Some (a, w') => k a w'
  | None => None
  end.

(** A list display [[x; y]] creates a new list object. *)
Definition alloc (l : list MockLayer.t) : M ref :=
  λ w, let r := fresh (dom (heap w)) in
       Some (r, World (<[r := l]> (heap w)) (stdout w)).

(** Reading the elements of a list object, as iteration does. *)
Definition deref (r : ref) : M (list MockLayer.t) :=
  λ w, match heap w !! r with
       | Some l => Some (l, w)
       | None => None
       end.

(** [dst.extend(src)]: the elements of [src], read before the update, are
    appended to [dst] in place ([dst] and [src] may be the same object). *)
Definition extend (dst src : ref) : M unit :=
  λ w, match heap w !! dst, heap w !! src with
       | Some a, Some b =>
           Some (tt, World (<[dst := a ++ b]> (heap w)) (stdout w))
       | _, _ => None
       end.

(** [print(msg)] writes one line. *)
Definition print (msg : string) : M unit :=
  λ w, Some (tt, World (heap w) (stdout w ++ [msg])).

(** ** Text formatting *)

(** [s.ljust(width)]: pad with spaces on the right, never truncate.  The
    length is counted in characters of the Rocq string. *)
Definition ljust (s : string) (width : nat) : string :=
  s +:+ String.string_of_list_ascii (replicate (width - String.length s) " "%char).

(** ['Layer {} {} (k{}, s{}, d{}) '.format(i + 1, name.ljust(20), k, s, d)];
    [{}] on an integer is its decimal notation. *)
Definition format_layer (i : nat) (layer : MockLayer.t) : string :=
  "Layer " +:+ pretty (i + 1)%nat +:+ " "
  +:+ ljust (MockLayer.name layer) 20
  +:+ " (k" +:+ pretty (MockLayer.kernel_size layer)
  +:+ ", s" +:+ pretty (MockLayer.stride layer)
  +:+ ", d" +:+ pretty (MockLayer.dilation_rate layer) +:+ ") ".

(** ** Models *)

Module MockModel.

(** The only attribute is [layers], a reference to a list object. *)
Record t := Build { layers : ref }.

(** [MockModel(initial_layer_list=None)]: the list given is kept as it
    is, not copied. *)
Definition __init__ (initial_layer_list : option ref) : M t :=
  match initial_layer_list with
  | None => r ← alloc []; mret (Build r)
  | Some r => mret (Build r)
  end.

Definition get_as_list (self : t) : M ref := mret (layers self).

(** What [add] accepts: an object with a [get_as_list] method, a layer
    or a model. *)
Inductive block :=
  | Layer (l : MockLayer.t)
  | Model (m : t).

(** [new_block.get_as_list()]: a layer builds a new list object, a model
    hands out its own. *)
Definition block_get_as_list (new_block : block) : M ref :=
  match new_block with
  | Layer l => alloc (MockLayer.get_as_list l)
  | Model m => get_as_list m
  end.

Definition add (self : t) (new_block : block) : M unit :=
  list_of_layers ← block_get_as_list new_block;
  extend (layers self) list_of_layers.

Definition get_layer_names (self : t) : M (list string) :=
  ls ← deref (layers self);
  mret (MockLayer.name <$> ls).

(** [for i, layer in enumerate(...)]: the pairs of an index from 0 and
    an element. *)
Definition enumerate {A} (l : list A) : list (nat * A) :=
  imap (λ i x, (i, x)) l.



(** The local variables of [get_receptive_field] that the loop
    updates. *)
Record locals := Locals {
  output_receptive_field : Z;
  accumulated_stride : Z;
  all_receptive_fields : list Z
}.

(** The body of the [for] loop, run on the items left. *)
Fixpoint receptive_field_loop (verbose : bool)
    (items : list (nat * MockLayer.t)) (st : locals) : M locals :=
  match items with
  | [] => mret st
  | (i, layer) :: items =>
      let '(output_receptive_field, accumulated_stride) :=
        MockLayer.get_output_receptive_field layer
          (output_receptive_field st) (accumulated_stride st) in
      let all_receptive_fields :=
        all_receptive_fields st ++ [output_receptive_field] in
      (if verbose then
         let msg :=
           format_layer i layer +:+ "Receptive field "
           +:+ pretty output_receptive_field in
         print msg
       else mret tt);;
      receptive_field_loop verbose items
        (Locals output_receptive_field accumulated_stride
           all_receptive_fields)
  end.

(** The state of the locals when the loop ends; [get_receptive_field]
    returns two of the three. *)
Definition receptive_field_run (self : t) (verbose : bool) : M locals :=
  ls ← deref (layers self);
  receptive_field_loop verbose (enumerate ls) (Locals 1 1 []).

Definition get_receptive_field (self : t) (verbose : bool)
    : M (Z * list Z) :=
  st ← receptive_field_run self verbose;
  (if verbose then print "" else mret tt);;
  mret (output_receptive_field st, all_receptive_fields st).

End MockModel.

(** ** The fold and the closed form of the specification *)

(** One step of the fold as the specification words it: call the layer's
    propagate on the two running values, replace both with the pair
    returned, and append the new receptive field. *)
Definition fold_step (st : MockModel.locals) (layer : MockLayer.t)
    : MockModel.locals :=
  let p :=
    MockLayer.get_output_receptive_field layer
      (MockModel.output_receptive_field st) (MockModel.accumulated_stride st) in
  MockModel.Locals p.1 p.2 (MockModel.all_receptive_fields st ++ [p.1]).

(** The left-to-right fold from receptive field 1, accumulated stride 1 and
    no entries. *)
Definition fold_layers (ls : list MockLayer.t) : MockModel.locals :=
  foldl fold_step (MockModel.Locals 1 1 []) ls.

Definition spec_receptive_field (ls : list MockLayer.t) : Z * list Z :=
  (MockModel.output_receptive_field (fold_layers ls),
   MockModel.all_receptive_fields (fold_layers ls)).

(** The lines that the verbose loop writes, from the items left and the
    state of the locals. *)
Fixpoint verbose_lines (items : list (nat * MockLayer.t))
    (st : MockModel.locals) : list string :=
  match items with
  | [] => []
  | (i, layer) :: items =>
      let st' := fold_step st layer in
      (format_layer i layer +:+ "Receptive field "
       +:+ pretty (MockModel.output_receptive_field st'))
      :: verbose_lines items st'
  end.

(** Everything [get_receptive_field] writes when [verbose] is set. *)
Definition verbose_output (verbose : bool) (ls : list MockLayer.t)
    : list string :=
  if verbose then
    verbose_lines (MockModel.enumerate ls) (MockModel.Locals 1 1 []) ++ [""]
  else [].

Definition sumZ (l : list Z) : Z := foldr Z.add 0 l.
Definition prodZ (l : list Z) : Z := foldr Z.mul 1 l.

(** The i-th summand (from 0): [(k_i - 1) * d_i] times the product of the
    strides of the layers before it. *)
Definition summand (ls : list MockLayer.t) (i : nat) : Z :=
  match ls !! i with
  | Some l =>
      (MockLayer.kernel_size l - 1) * MockLayer.dilation_rate l
      * prodZ (MockLayer.stride <$> take i ls)
  | None => 0
  end.

(** One plus the first [n] summands. *)
Definition closed_form (ls : list MockLayer.t) (n : nat) : Z :=
  1 + sumZ (summand ls <$> seq 0 n).

(** The numeric fields of a layer, without its name. *)
Definition numeric (l : MockLayer.t) : Z * Z * Z :=
  (MockLayer.kernel_size l, MockLayer.stride l, MockLayer.dilation_rate l).

(** A layer whose three numeric fields are at least 1. *)
Definition positive_layer (l : MockLayer.t) : Prop :=
  1 ≤ MockLayer.kernel_size l ∧ 1 ≤ MockLayer.stride l
  ∧ 1 ≤ MockLayer.dilation_rate l.

(** ** Building a group *)

(** Every list object of [w] other than [r0] has the same elements in
    [w']. *)
Definition unchanged_except (r0 : ref) (w w' : world) : Prop :=
  ∀ r, is_Some (heap w !! r) → r ≠ r0 → heap w' !! r = heap w !! r.

(** The sequence a model holds: [get_as_list] and then its elements. *)
Definition flattened (g : MockModel.t) : M (list MockLayer.t) :=
  r ← MockModel.get_as_list g;
  deref r.

(** [for l in ls: g.add(l)]. *)
Fixpoint add_each (g : MockModel.t) (ls : list MockLayer.t) : M unit :=
  match ls with
  | [] => mret tt
  | l :: ls => MockModel.add g (MockModel.Layer l);; add_each g ls
  end.

(** [g = MockModel()] and then the layers one at a time. *)
Definition build_one_by_one (ls : list MockLayer.t) : M MockModel.t :=
  g ← MockModel.__init__ None;
  add_each g ls;;
  mret g.

(** A consecutive block of the sequence, and how it reaches the group:
    as a layer of its own, as a sub-group grown with [add], or as a
    sub-group made from a list display. *)
Inductive piece :=
  | Single (l : MockLayer.t)
  | Grown (ls : list MockLayer.t)
  | Given (ls : list MockLayer.t).

Definition piece_layers (p : piece) : list MockLayer.t :=
  match p with
  | Single l => [l]
  | Grown ls => ls
  | Given ls => ls
  end.

Definition add_piece (g : MockModel.t) (p : piece) : M unit :=
  match p with
  | Single l => MockModel.add g (MockModel.Layer l)
  | Grown ls =>
      sub ← build_one_by_one ls;
      MockModel.add g (MockModel.Model sub)
  | Given ls =>
      r ← alloc ls;
      sub ← MockModel.__init__ (Some r);
      MockModel.add g (MockModel.Model sub)
  end.

Fixpoint add_pieces (g : MockModel.t) (ps : list piece) : M unit :=
  match ps with
  | [] => mret tt
  | p :: ps => add_piece g p;; add_pieces g ps
  end.

(** [g = MockModel()] and then the blocks in order. *)
Definition build_by_blocks (ps : list piece) : M MockModel.t :=
  g ← MockModel.__init__ None;
  add_pieces g ps;;
  mret g.

(** The sequence held by the model that a construction returns. *)
Definition flattened_after (build : M MockModel.t) : M (list MockLayer.t) :=
  g ← build;
  flattened g.

(** Two calls in a row, with nothing in between. *)
Definition twice {A} (c : M A) : M (A * A) :=
  a ← c;
  b ← c;
  mret (a, b).

(** The locals after the first [i] iterations of the loop of
    [get_receptive_field] over the layers [ls]. *)
Definition loop_state (verbose : bool) (ls : list MockLayer.t) (i : nat)
    (w : world) : option MockModel.locals :=
  fst <$> MockModel.receptive_field_loop verbose
            (take i (MockModel.enumerate ls)) (MockModel.Locals 1 1 []) w.

(** ** Sample layers and stores *)

Definition layer_A : MockLayer.t := MockConv 3 (Some 2) None (Some "A").
Definition layer_B : MockLayer.t := MockConv 3 None None (Some "B").
Definition layer_C : MockLayer.t := MockPool 2 None (Some "C").

Definition sample_layers : list MockLayer.t := [layer_A; layer_B; layer_C].

(** The same numeric fields under other names. *)
Definition renamed_layers : list MockLayer.t :=
  [MockLayer.__init__ 3 2 1 None; MockLayer.__init__ 3 1 1 (Some "x");
   MockPool 2 (Some 2) (Some "y")].

(** A store with one list object and the model that holds it. *)
Definition store_of (ls : list MockLayer.t) : world :=
  World {[1%positive := ls]} [].

Definition model_1 : MockModel.t := MockModel.Build 1%positive.

(** ** More ways to build and to read a model *)

(** The elements that a block hands to [add], read in the store [w]: the
    layer itself, or the elements of the model's list. *)
Definition block_contents (w : world) (b : MockModel.block)
    : option (list MockLayer.t) :=
  match b with
  | MockModel.Layer l => Some (MockLayer.get_as_list l)
  | MockModel.Model m => heap w !! MockModel.layers m
  end.

(** Every list object of [w] has the same elements in [w']. *)
Definition preserved (w w' : world) : Prop :=
  ∀ r, is_Some (heap w !! r) → heap w' !! r = heap w !! r.

(** Layers and models nested to any depth. *)
Unset Elimination Schemes.
Inductive nest :=
  | Leaf (l : MockLayer.t)
  | Group (children : list nest).
Set Elimination Schemes.

(** The layers of a nest, from left to right. *)
Fixpoint nest_layers (t : nest) : list MockLayer.t :=
  match t with
  | Leaf l => [l]
  | Group ts => concat (map nest_layers ts)
  end.

(** [for child in children: g.add(child)], each child built in turn by
    [build]. *)
Definition add_children (build : nest → M MockModel.block)
    (g : MockModel.t) : list nest → M unit :=
  fix go (ts : list nest) : M unit :=
    match ts with
    | [] => mret tt
    | t :: ts =>
        b ← build t;
        MockModel.add g b;;
        go ts
    end.

(** [g = MockModel()] followed by [g.add(child)] for each child. *)
Definition build_model_with (build : nest → M MockModel.block)
    (ts : list nest) : M MockModel.t :=
  g ← MockModel.__init__ None;
  add_children build g ts;;
  mret g.

(** A leaf is the layer itself; a group is a model built from its
    children. *)
Fixpoint build_nest (t : nest) : M MockModel.block :=
  match t with
  | Leaf l => mret (MockModel.Layer l)
  | Group ts =>
      g ← build_model_with build_nest ts;
      mret (MockModel.Model g)
  end.

Definition build_model (ts : list nest) : M MockModel.t :=
  build_model_with build_nest ts.

(** What building a nest gives: a block that holds the layers of the nest,
    in a store where the lists that existed are as they were and nothing
    was printed. *)
Definition built (t : nest) (w : world) : Prop :=
  ∃ b w', build_nest t w = Some (b, w')
    ∧ block_contents w' b = Some (nest_layers t)
    ∧ preserved w w'
    ∧ stdout w' = stdout w.

(** The same layer with its dilation folded into the kernel size. *)
Definition undilated (l : MockLayer.t) : MockLayer.t :=
  MockLayer.__init__
    ((MockLayer.kernel_size l - 1) * MockLayer.dilation_rate l + 1)
    (MockLayer.stride l) 1 (Some (MockLayer.name l)).

(** A layer that looks at one input position and does not subsample. *)
Definition pointwise (l : MockLayer.t) : Prop :=
  MockLayer.kernel_size l = 1 ∧ MockLayer.stride l = 1.

#[global] Instance pointwise_dec l : Decision (pointwise l).
Proof. unfold pointwise. apply _. Defined.

(** A second model, and a store with a list for each. *)
Definition model_2 : MockModel.t := MockModel.Build 2%positive.

Definition store_of_two (a b : list MockLayer.t) : world :=
  World {[1%positive := a; 2%positive := b]} [].



(** The product of the strides of a sequence of layers. *)
Definition total_stride (ls : list MockLayer.t) : Z :=
  prodZ (MockLayer.stride <$> ls).

(** A receptive field counted behind [a] layers moved in front of them:
    [rf] positions of their output span this many positions of their
    input. *)
Definition shifted (a : list MockLayer.t) (z : Z) : Z :=
  MockModel.output_receptive_field (fold_layers a) + total_stride a * (z - 1).

(** Layers made by [MockPool(pool_size)] with no stride given. *)
Definition default_pool (l : MockLayer.t) : Prop :=
  ∃ pool_size name, l = MockPool pool_size None name.

(** Layers made by [MockConv(kernel_size)] with no stride and no dilation
    rate given. *)
Definition default_conv (l : MockLayer.t) : Prop :=
  ∃ kernel_size name, l = MockConv kernel_size None None name.

(** What a layer adds to the receptive field where nothing before it
    subsamples. *)
Definition kernel_extent (l : MockLayer.t) : Z :=
  (MockLayer.kernel_size l - 1) * MockLayer.dilation_rate l.

(** A layer that looks at two input positions or more. *)
Definition widening (l : MockLayer.t) : Prop :=
  2 ≤ MockLayer.kernel_size l ∧ 1 ≤ MockLayer.stride l
  ∧ 1 ≤ MockLayer.dilation_rate l.

(** The same layer with another stride. *)
Definition with_stride (l : MockLayer.t) (stride : Z) : MockLayer.t :=
  MockLayer.__init__ (MockLayer.kernel_size l) stride
    (MockLayer.dilation_rate l) (Some (MockLayer.name l)).

(** * Properties *)

(** ** Running the monad *)

Lemma bind_Some {A B} (c : M A) (k : A → M B) w a w' :
  c w = Some (a, w') → (c ≫= k) w = k a w'.
Proof. intros H. unfold mbind, M_bind. by rewrite H. Qed.

Lemma bind_None {A B} (c : M A) (k : A → M B) w :
  c w = None → (c ≫= k) w = None.
Proof. intros H. unfold mbind, M_bind. by rewrite H. Qed.

(** ** The loop of [get_receptive_field] is the fold *)

Lemma imap_snd {A} (f : nat → A → nat * A) (l : list A) :
  (∀ i x, (f i x).2 = x) → (imap f l).*2 = l.
Proof.
  revert f. induction l as [|x l IH]; intros f Hf; [done|].
  cbn. rewrite Hf. f_equal. apply IH. intros i y. apply Hf.
Qed.

Lemma enumerate_snd {A} (l : list A) : (MockModel.enumerate l).*2 = l.
Proof. by apply imap_snd. Qed.


Lemma verbose_lines_length items st :
  length (verbose_lines items st) = length items.
Proof.
  revert st. induction items as [|[i layer] items IH]; intros st; [done|].
  cbn. by rewrite IH.
Qed.

Lemma receptive_field_loop_spec verbose items st w :
  MockModel.receptive_field_loop verbose items st w
  = Some (foldl fold_step st items.*2,
          World (heap w)
            (stdout w ++ if verbose then verbose_lines items st else [])).
Proof.
  revert st w. induction items as [|[i layer] items IH]; intros st w.
  - cbn. unfold mret, M_ret. destruct w, verbose; cbn; by rewrite app_nil_r.
  - cbn [MockModel.receptive_field_loop fmap list_fmap foldl snd verbose_lines].
    unfold MockLayer.get_output_receptive_field at 1.
    destruct verbose.
    + erewrite bind_Some by reflexivity. rewrite IH. cbn.
      by rewrite <- app_assoc.
    + erewrite bind_Some by reflexivity. by rewrite IH.
Qed.

(** The locals at the end of the loop, for any store: the fold over the
    elements of the model's list, and nothing if the reference dangles. *)
Lemma receptive_field_run_eq self verbose w :
  MockModel.receptive_field_run self verbose w
  = (λ ls, (fold_layers ls,
            World (heap w)
              (stdout w ++ if verbose
                           then verbose_lines (MockModel.enumerate ls)
                                  (MockModel.Locals 1 1 [])
                           else [])))
    <$> heap w !! MockModel.layers self.
Proof.
  unfold MockModel.receptive_field_run.
  destruct (heap w !! MockModel.layers self) as [ls|] eqn:E; cbn.
  - erewrite bind_Some by (unfold deref; rewrite E; reflexivity).
    rewrite receptive_field_loop_spec. by rewrite enumerate_snd.
  - apply bind_None. unfold deref. by rewrite E.
Qed.

Lemma get_receptive_field_eq self verbose w :
  MockModel.get_receptive_field self verbose w
  = (λ ls, (spec_receptive_field ls,
            World (heap w) (stdout w ++ verbose_output verbose ls)))
    <$> heap w !! MockModel.layers self.
Proof.
  unfold MockModel.get_receptive_field.
  pose proof (receptive_field_run_eq self verbose w) as R.
  destruct (heap w !! MockModel.layers self) as [ls|] eqn:E; cbn in *.
  - erewrite bind_Some by exact R.
    unfold verbose_output, spec_receptive_field.
    destruct verbose; cbn.
    + erewrite bind_Some by reflexivity.
      unfold mret, M_ret; cbn. by rewrite <- app_assoc.
    + erewrite bind_Some by reflexivity.
      unfold mret, M_ret; cbn. by rewrite app_nil_r.
  - by apply bind_None.
Qed.

(** ** The fold, one layer at a time *)

Section fold.
Implicit Types (ls : list MockLayer.t) (x : MockLayer.t) (i n : nat).

Lemma fold_layers_snoc ls x :
  fold_layers (ls ++ [x]) = fold_step (fold_layers ls) x.
Proof. unfold fold_layers. by rewrite foldl_app. Qed.

Lemma fold_all_length ls :
  length (MockModel.all_receptive_fields (fold_layers ls)) = length ls.
Proof.
  induction ls as [|x ls IH] using rev_ind; [done|].
  rewrite fold_layers_snoc. cbn. rewrite !length_app, IH. done.
Qed.

Lemma fold_all_lookup ls i :
  (i < length ls)%nat →
  MockModel.all_receptive_fields (fold_layers ls) !! i
  = Some (MockModel.output_receptive_field (fold_layers (take (S i) ls))).
Proof.
  induction ls as [|x ls IH] using rev_ind; intros Hi; [cbn in Hi; lia|].
  rewrite length_app in Hi. cbn in Hi.
  rewrite fold_layers_snoc.
  cbn [fold_step MockModel.all_receptive_fields].
  destruct (decide (i < length ls)%nat) as [Hlt|Hge].
  - rewrite lookup_app_l by (rewrite fold_all_length; lia).
    rewrite take_app_le by lia. by apply IH.
  - assert (i = length ls) as -> by lia.
    rewrite lookup_app_r by (rewrite fold_all_length; lia).
    rewrite fold_all_length, Nat.sub_diag.
    rewrite take_ge by (rewrite length_app; cbn; lia).
    by rewrite fold_layers_snoc.
Qed.

Lemma fold_output_last ls :
  MockModel.output_receptive_field (fold_layers ls)
  = default 1 (last (MockModel.all_receptive_fields (fold_layers ls))).
Proof.
  destruct ls as [|x ls _] using rev_ind; [done|].
  rewrite fold_layers_snoc. cbn. by rewrite last_snoc.
Qed.

(** *** Closed form *)

Lemma summand_take ls n i :
  (i < n)%nat → summand (take n ls) i = summand ls i.
Proof.
  intros Hi. unfold summand.
  rewrite lookup_take_lt by done.
  rewrite take_take. by replace (i `min` n)%nat with i by lia.
Qed.

Lemma closed_form_take ls n m :
  (m ≤ n)%nat → closed_form (take n ls) m = closed_form ls m.
Proof.
  intros Hm. unfold closed_form. do 2 f_equal.
  apply list_eq. intros i. rewrite !list_lookup_fmap.
  destruct (decide (i < m)%nat).
  - rewrite lookup_seq_lt by done. cbn. f_equal. apply summand_take. lia.
  - rewrite !lookup_seq_ge by lia. done.
Qed.

Lemma sumZ_snoc (l : list Z) (z : Z) : sumZ (l ++ [z]) = sumZ l + z.
Proof. unfold sumZ. induction l as [|y l IH]; cbn in *; lia. Qed.

Lemma prodZ_snoc (l : list Z) (z : Z) : prodZ (l ++ [z]) = prodZ l * z.
Proof.
  unfold prodZ. induction l as [|y l IH]; cbn in *; [lia|].
  rewrite IH. lia.
Qed.

Lemma closed_form_S ls n :
  closed_form ls (S n) = closed_form ls n + summand ls n.
Proof.
  unfold closed_form. rewrite seq_S, fmap_app. cbn.
  rewrite sumZ_snoc. lia.
Qed.

Lemma fold_layers_closed ls :
  MockModel.output_receptive_field (fold_layers ls)
    = closed_form ls (length ls)
  ∧ MockModel.accumulated_stride (fold_layers ls)
    = prodZ (MockLayer.stride <$> ls).
Proof.
  induction ls as [|x ls [IHr IHs]] using rev_ind; [done|].
  rewrite fold_layers_snoc. cbn. rewrite IHr, IHs. split.
  - rewrite length_app. cbn. rewrite Nat.add_1_r, closed_form_S.
    rewrite <- (closed_form_take (ls ++ [x]) (length ls)) by lia.
    rewrite take_app_length. unfold summand.
    rewrite lookup_app_r, Nat.sub_diag by lia. cbn.
    rewrite take_app_length. lia.
  - rewrite fmap_app. cbn. by rewrite prodZ_snoc.
Qed.

(** The closed form reads the numeric fields only. *)
Lemma summand_numeric ls ls' i :
  numeric <$> ls = numeric <$> ls' → summand ls i = summand ls' i.
Proof.
  intros H. unfold summand.
  assert (MockLayer.stride <$> take i ls = MockLayer.stride <$> take i ls')
    as ->.
  { rewrite !fmap_take. f_equal.
    assert (∀ k : list MockLayer.t,
      MockLayer.stride <$> k = (λ p : Z * Z * Z, p.1.2) <$> (numeric <$> k))
      as E by (intros k; by rewrite <- list_fmap_compose).
    by rewrite !E, H. }
  pose proof (f_equal (.!! i) H) as Hi. cbn in Hi.
  rewrite !list_lookup_fmap in Hi.
  destruct (ls !! i) as [l|], (ls' !! i) as [l'|]; cbn in Hi; try done.
  unfold numeric in Hi. injection Hi as -> _ ->. done.
Qed.

Lemma closed_form_numeric ls ls' n :
  numeric <$> ls = numeric <$> ls' → closed_form ls n = closed_form ls' n.
Proof.
  intros H. unfold closed_form. do 2 f_equal.
  apply list_fmap_ext. intros i j _. by apply summand_numeric.
Qed.

End fold.

(** *** Monotonicity *)

Section monotone.
Implicit Types (ls : list MockLayer.t) (x : MockLayer.t)
  (st : MockModel.locals).

Lemma fold_step_monotone st x :
  positive_layer x →
  1 ≤ MockModel.output_receptive_field st →
  1 ≤ MockModel.accumulated_stride st →
  MockModel.output_receptive_field st
    ≤ MockModel.output_receptive_field (fold_step st x)
  ∧ MockModel.accumulated_stride st
    ≤ MockModel.accumulated_stride (fold_step st x).
Proof.
  intros (Hk & Hs & Hd) Hr Ha. cbn. split; nia.
Qed.

Lemma fold_step_all st x :
  MockModel.all_receptive_fields (fold_step st x)
  = MockModel.all_receptive_fields st
    ++ [MockModel.output_receptive_field (fold_step st x)].
Proof. reflexivity. Qed.

Lemma fold_layers_bounds ls :
  Forall positive_layer ls →
  1 ≤ MockModel.output_receptive_field (fold_layers ls)
  ∧ 1 ≤ MockModel.accumulated_stride (fold_layers ls)
  ∧ Forall (λ z, 1 ≤ z ≤ MockModel.output_receptive_field (fold_layers ls))
      (MockModel.all_receptive_fields (fold_layers ls)).
Proof.
  induction ls as [|x ls IH] using rev_ind; intros Hpos.
  - cbn. repeat split; try lia. constructor.
  - rewrite Forall_app, Forall_singleton in Hpos. destruct Hpos as [Hls Hx].
    destruct (IH Hls) as (Hr & Ha & Hall).
    destruct (fold_step_monotone _ x Hx Hr Ha) as [Hr' Ha'].
    rewrite fold_layers_snoc. repeat split; try lia.
    rewrite fold_step_all.
    apply Forall_app. split.
    + eapply Forall_impl; [exact Hall|]. intros z Hz. cbv beta in *. lia.
    + apply Forall_singleton. lia.
Qed.

Lemma StronglySorted_snoc (l : list Z) (z : Z) :
  StronglySorted Z.le l → Forall (λ y, y ≤ z) l →
  StronglySorted Z.le (l ++ [z]).
Proof.
  induction 1 as [|y l Hl IH Hy]; intros Hz; cbn.
  - repeat constructor.
  - apply Forall_cons in Hz as [Hyz Hz]. constructor; [by apply IH|].
    apply Forall_app. split; [done|]. by apply Forall_singleton.
Qed.

Lemma fold_layers_sorted ls :
  Forall positive_layer ls →
  StronglySorted Z.le (MockModel.all_receptive_fields (fold_layers ls)).
Proof.
  induction ls as [|x ls IH] using rev_ind; intros Hpos; [constructor|].
  rewrite Forall_app, Forall_singleton in Hpos. destruct Hpos as [Hls Hx].
  destruct (fold_layers_bounds ls Hls) as (Hr & Ha & Hall).
  destruct (fold_step_monotone _ x Hx Hr Ha) as [Hr' _].
  rewrite fold_layers_snoc, fold_step_all.
  apply StronglySorted_snoc; [by apply IH|].
  eapply Forall_impl; [exact Hall|]. intros z Hz. cbv beta in *. lia.
Qed.

End monotone.

(** ** The store under [add] *)

Section store.
Implicit Types (g sub : MockModel.t) (w : world) (ls a b : list MockLayer.t).

Lemma fresh_unused w : heap w !! fresh (dom (heap w)) = None.
Proof. apply not_elem_of_dom, is_fresh. Qed.

Lemma unchanged_except_trans r0 w1 w2 w3 :
  unchanged_except r0 w1 w2 → unchanged_except r0 w2 w3 →
  unchanged_except r0 w1 w3.
Proof.
  intros H12 H23 r Hr Hne.
  assert (heap w2 !! r = heap w1 !! r) as E12 by by apply H12.
  rewrite H23; [done| |done]. by rewrite E12.
Qed.

Lemma add_layer_spec g l w a :
  heap w !! MockModel.layers g = Some a →
  ∃ w', MockModel.add g (MockModel.Layer l) w = Some (tt, w')
    ∧ heap w' !! MockModel.layers g = Some (a ++ [l])
    ∧ unchanged_except (MockModel.layers g) w w'.
Proof.
  intros Hg. pose proof (fresh_unused w) as Hf.
  set (r := fresh (dom (heap w))) in *.
  assert (r ≠ MockModel.layers g) as Hne by congruence.
  eexists. split; [|split].
  - unfold MockModel.add. cbn.
    erewrite bind_Some by reflexivity.
    unfold extend. cbn. fold r.
    rewrite lookup_insert_ne, Hg, lookup_insert_eq by done. reflexivity.
  - cbn. by rewrite lookup_insert_eq.
  - intros r' Hr' Hne'. cbn.
    rewrite !lookup_insert_ne; [done| |done].
    intros ->. rewrite Hf in Hr'. by destruct Hr'.
Qed.

Lemma add_model_spec g sub w a b :
  heap w !! MockModel.layers g = Some a →
  heap w !! MockModel.layers sub = Some b →
  MockModel.add g (MockModel.Model sub) w
  = Some (tt, World (<[MockModel.layers g := a ++ b]> (heap w)) (stdout w)).
Proof.
  intros Hg Hs. unfold MockModel.add. cbn.
  erewrite bind_Some by reflexivity.
  unfold extend. by rewrite Hg, Hs.
Qed.

Lemma add_each_spec g ls w a :
  heap w !! MockModel.layers g = Some a →
  ∃ w', add_each g ls w = Some (tt, w')
    ∧ heap w' !! MockModel.layers g = Some (a ++ ls)
    ∧ unchanged_except (MockModel.layers g) w w'.
Proof.
  revert w a. induction ls as [|l ls IH]; intros w a Hg.
  - exists w. cbn. rewrite app_nil_r. by repeat split.
  - destruct (add_layer_spec g l w a Hg) as (w1 & Hadd & Hg1 & Hfr1).
    destruct (IH w1 _ Hg1) as (w2 & Hrest & Hg2 & Hfr2).
    exists w2. split; [|split].
    + cbn. erewrite bind_Some by exact Hadd. exact Hrest.
    + by rewrite Hg2, <- app_assoc.
    + by eapply unchanged_except_trans.
Qed.

Lemma build_one_by_one_spec ls w :
  ∃ g w', build_one_by_one ls w = Some (g, w')
    ∧ heap w' !! MockModel.layers g = Some ls
    ∧ heap w !! MockModel.layers g = None
    ∧ unchanged_except (MockModel.layers g) w w'.
Proof.
  pose proof (fresh_unused w) as Hf.
  set (r := fresh (dom (heap w))) in *.
  set (w0 := World (<[r := []]> (heap w)) (stdout w)).
  destruct (add_each_spec (MockModel.Build r) ls w0 [])
    as (w1 & Hadd & Hg & Hfr); [by apply lookup_insert_eq|].
  exists (MockModel.Build r), w1. split; [|split; [|split]]; try done.
  - unfold build_one_by_one.
    erewrite bind_Some by reflexivity.
    erewrite bind_Some by exact Hadd. reflexivity.
  - intros r' Hr' Hne. cbn in *. rewrite Hfr; cbn.
    + by rewrite lookup_insert_ne.
    + by rewrite lookup_insert_ne.
    + done.
Qed.

Lemma add_piece_spec g p w a :
  heap w !! MockModel.layers g = Some a →
  ∃ w', add_piece g p w = Some (tt, w')
    ∧ heap w' !! MockModel.layers g = Some (a ++ piece_layers p).
Proof.
  intros Hg. destruct p as [l|ls|ls]; cbn [add_piece piece_layers].
  - destruct (add_layer_spec g l w a Hg) as (w' & ? & ? & _). eauto.
  - destruct (build_one_by_one_spec ls w) as (sub & w1 & Hb & Hs & Hn & Hfr).
    assert (heap w1 !! MockModel.layers g = Some a) as Hg1.
    { rewrite Hfr; [done|by rewrite Hg|congruence]. }
    eexists. split.
    + erewrite bind_Some by exact Hb.
      by apply add_model_spec.
    + cbn. by rewrite lookup_insert_eq.
  - pose proof (fresh_unused w) as Hf.
    set (r := fresh (dom (heap w))) in *.
    assert (r ≠ MockModel.layers g) as Hne by congruence.
    eexists. split.
    + erewrite bind_Some by reflexivity.
      erewrite bind_Some by reflexivity.
      apply add_model_spec; cbn; fold r.
      * by rewrite lookup_insert_ne.
      * by rewrite lookup_insert_eq.
    + cbn. by rewrite lookup_insert_eq.
Qed.

Lemma add_pieces_spec g ps w a :
  heap w !! MockModel.layers g = Some a →
  ∃ w', add_pieces g ps w = Some (tt, w')
    ∧ heap w' !! MockModel.layers g
      = Some (a ++ concat (piece_layers <$> ps)).
Proof.
  revert w a. induction ps as [|p ps IH]; intros w a Hg.
  - exists w. cbn. by rewrite app_nil_r.
  - destruct (add_piece_spec g p w a Hg) as (w1 & Hadd & Hg1).
    destruct (IH w1 _ Hg1) as (w2 & Hrest & Hg2).
    exists w2. split.
    + cbn. erewrite bind_Some by exact Hadd. exact Hrest.
    + cbn. by rewrite Hg2, <- app_assoc.
Qed.

Lemma build_by_blocks_spec ps w :
  ∃ g w', build_by_blocks ps w = Some (g, w')
    ∧ heap w' !! MockModel.layers g = Some (concat (piece_layers <$> ps)).
Proof.
  set (r := fresh (dom (heap w))).
  set (w0 := World (<[r := []]> (heap w)) (stdout w)).
  destruct (add_pieces_spec (MockModel.Build r) ps w0 [])
    as (w1 & Hadd & Hg); [by apply lookup_insert_eq|].
  exists (MockModel.Build r), w1. split; [|done].
  unfold build_by_blocks.
  erewrite bind_Some by reflexivity.
  erewrite bind_Some by exact Hadd. reflexivity.
Qed.

Lemma flattened_spec g w ls :
  heap w !! MockModel.layers g = Some ls → flattened g w = Some (ls, w).
Proof.
  intros Hg. unfold flattened.
  erewrite bind_Some by reflexivity. unfold deref. by rewrite Hg.
Qed.

End store.

(** ** Sample runs *)

Example run_two_convs :
  fst <$> (g ← MockModel.__init__ None;
           MockModel.add g (MockModel.Layer (MockConv 3 None None None));;
           MockModel.add g (MockModel.Layer (MockConv 3 None None None));;
           MockModel.get_receptive_field g false) (World ∅ [])
  = Some (5, [3; 5]).
Proof. vm_compute. reflexivity. Qed.

Example run_verbose :
  (stdout ∘ snd) <$> MockModel.get_receptive_field model_1 true
                       (store_of [layer_A; layer_C])
  = Some ["Layer 1 A                    (k3, s2, d1) Receptive field 3";
          "Layer 2 C                    (k2, s2, d1) Receptive field 5";
          ""]%string.
Proof. vm_compute. reflexivity. Qed.

Example run_names :
  fst <$> MockModel.get_layer_names model_1
            (store_of [layer_A; layer_B; layer_C])
  = Some ["A"; "B"; "C"]%string.
Proof. vm_compute. reflexivity. Qed.

(** A model added to itself doubles: [extend] reads its argument before it
    writes. *)
Example run_add_self :
  fst <$> (MockModel.add model_1 (MockModel.Model model_1);;
           flattened model_1) (store_of [layer_A; layer_B])
  = Some [layer_A; layer_B; layer_A; layer_B].
Proof. vm_compute. reflexivity. Qed.

(** ** Layers *)

(** C1: for every layer and every pair of integers, [get_output_receptive_field]
    returns exactly [((k - 1) * d * input_accumulated_stride +
    input_receptive_field, input_accumulated_stride * s)].  It is a function
    of its two arguments and of the three numeric fields alone: the store
    and the output stream are not among its arguments or results, and
    another name gives the same pair. *)
Theorem get_output_receptive_field_formula (self : MockLayer.t)
    (input_receptive_field input_accumulated_stride : Z) :
  MockLayer.get_output_receptive_field self
    input_receptive_field input_accumulated_stride
  = ((MockLayer.kernel_size self - 1) * MockLayer.dilation_rate self
       * input_accumulated_stride + input_receptive_field,
     input_accumulated_stride * MockLayer.stride self)
  ∧ ∀ name' : string,
      MockLayer.get_output_receptive_field
        (MockLayer.Build (MockLayer.kernel_size self) (MockLayer.stride self)
           (MockLayer.dilation_rate self) name')
        input_receptive_field input_accumulated_stride
      = MockLayer.get_output_receptive_field self
          input_receptive_field input_accumulated_stride.
Proof. split; [|intros name']; reflexivity. Qed.

Lemma MockPool_default_stride (pool_size : Z) (name : option string) :
  MockPool pool_size None name = MockLayer.__init__ pool_size pool_size 1 name.
Proof. unfold MockPool, MockLayer.__init__. by destruct name. Qed.

(** C5: for every positive [p], [MockPool(p)] with no stride given is the
    same descriptor as [MockLayer(p, p, 1)] with the same name: its stride
    is [p], its dilation rate is 1, and [get_output_receptive_field] agrees
    on every pair of inputs. *)
Theorem MockPool_is_plain_layer (p : Z) (name : option string) :
  0 < p →
  MockPool p None name = MockLayer.__init__ p p 1 name
  ∧ MockLayer.kernel_size (MockPool p None name) = p
  ∧ MockLayer.stride (MockPool p None name) = p
  ∧ MockLayer.dilation_rate (MockPool p None name) = 1
  ∧ ∀ input_receptive_field input_accumulated_stride,
      MockLayer.get_output_receptive_field (MockPool p None name)
        input_receptive_field input_accumulated_stride
      = MockLayer.get_output_receptive_field (MockLayer.__init__ p p 1 name)
          input_receptive_field input_accumulated_stride.
Proof.
  intros _. rewrite MockPool_default_stride. by repeat split.
Qed.

Lemma MockPool_is_plain_layer_witness :
  0 < 2
  ∧ MockPool 2 None None = MockLayer.__init__ 2 2 1 None
  ∧ MockLayer.kernel_size (MockPool 2 None None) = 2
  ∧ MockLayer.stride (MockPool 2 None None) = 2
  ∧ MockLayer.dilation_rate (MockPool 2 None None) = 1
  ∧ ∀ input_receptive_field input_accumulated_stride,
      MockLayer.get_output_receptive_field (MockPool 2 None None)
        input_receptive_field input_accumulated_stride
      = MockLayer.get_output_receptive_field (MockLayer.__init__ 2 2 1 None)
          input_receptive_field input_accumulated_stride.
Proof.
  split; [reflexivity|]. apply (MockPool_is_plain_layer 2 None). reflexivity.
Defined.

(** ** The receptive field of a model *)

Lemma fold_all_seq ls :
  MockModel.all_receptive_fields (fold_layers ls)
  = (λ i, MockModel.output_receptive_field (fold_layers (take (S i) ls)))
    <$> seq 0 (length ls).
Proof.
  apply list_eq. intros i. rewrite list_lookup_fmap.
  destruct (decide (i < length ls)%nat).
  - rewrite fold_all_lookup, lookup_seq_lt by done. reflexivity.
  - rewrite lookup_seq_ge by lia. cbn.
    apply lookup_ge_None. rewrite fold_all_length. lia.
Qed.

(** C2: [get_receptive_field] is the left-to-right fold over the layers from
    receptive field 1 and accumulated stride 1, each step calling the
    layer's [get_output_receptive_field] on the two running values,
    replacing both and appending the new receptive field.  It returns the
    receptive field after the last layer and a list with one entry per
    layer, in the order of the layers: entry [i] is the receptive field
    after the first [i + 1] layers. *)
Theorem get_receptive_field_is_fold (self : MockModel.t) (verbose : bool)
    (w : world) (ls : list MockLayer.t) :
  heap w !! MockModel.layers self = Some ls →
  fst <$> MockModel.get_receptive_field self verbose w
    = Some (spec_receptive_field ls)
  ∧ (spec_receptive_field ls).1
    = MockModel.output_receptive_field
        (foldl fold_step (MockModel.Locals 1 1 []) ls)
  ∧ (spec_receptive_field ls).1 = default 1 (last (spec_receptive_field ls).2)
  ∧ length (spec_receptive_field ls).2 = length ls
  ∧ (spec_receptive_field ls).2
    = (λ i, (spec_receptive_field (take (S i) ls)).1) <$> seq 0 (length ls).
Proof.
  intros Hls. rewrite get_receptive_field_eq, Hls. cbn.
  split; [done|]. split; [done|]. split; [apply fold_output_last|].
  split; [apply fold_all_length|apply fold_all_seq].
Qed.

Lemma get_receptive_field_is_fold_witness :
  heap (store_of sample_layers) !! MockModel.layers model_1
    = Some sample_layers
  ∧ fst <$> MockModel.get_receptive_field model_1 true (store_of sample_layers)
    = Some (spec_receptive_field sample_layers)
  ∧ (spec_receptive_field sample_layers).1
    = MockModel.output_receptive_field
        (foldl fold_step (MockModel.Locals 1 1 []) sample_layers)
  ∧ (spec_receptive_field sample_layers).1
    = default 1 (last (spec_receptive_field sample_layers).2)
  ∧ length (spec_receptive_field sample_layers).2 = length sample_layers
  ∧ (spec_receptive_field sample_layers).2
    = (λ i, (spec_receptive_field (take (S i) sample_layers)).1)
      <$> seq 0 (length sample_layers).
Proof.
  split; [reflexivity|].
  apply (get_receptive_field_is_fold model_1 true (store_of sample_layers)
           sample_layers).
  reflexivity.
Defined.

(** C3: on a model whose list of layers is empty, [get_receptive_field]
    returns [(1, [])]. *)
Theorem get_receptive_field_empty (self : MockModel.t) (verbose : bool)
    (w : world) :
  heap w !! MockModel.layers self = Some [] →
  fst <$> MockModel.get_receptive_field self verbose w = Some (1, []).
Proof. intros Hls. by rewrite get_receptive_field_eq, Hls. Qed.

Lemma get_receptive_field_empty_witness :
  heap (store_of []) !! MockModel.layers model_1 = Some []
  ∧ fst <$> MockModel.get_receptive_field model_1 false (store_of [])
    = Some (1, []).
Proof.
  split; [reflexivity|].
  apply (get_receptive_field_empty model_1 false (store_of [])). reflexivity.
Defined.

(** The same for [MockModel()] right after its construction, in any
    store. *)
Lemma get_receptive_field_new_model (verbose : bool) (w : world) :
  fst <$> (g ← MockModel.__init__ None;
           MockModel.get_receptive_field g verbose) w
  = Some (1, []).
Proof.
  erewrite bind_Some by reflexivity.
  rewrite get_receptive_field_eq. cbn. by rewrite lookup_insert_eq.
Qed.

(** C4: for the layers (k=3, s=2, d=1) then (k=3, s=1, d=1), whatever their
    names, [get_receptive_field] returns [(7, [3; 7])], and the accumulated
    stride when the loop ends is 2. *)
Theorem get_receptive_field_stride_two (self : MockModel.t) (verbose : bool)
    (w : world) (name1 name2 : option string) :
  heap w !! MockModel.layers self
    = Some [MockLayer.__init__ 3 2 1 name1; MockLayer.__init__ 3 1 1 name2] →
  fst <$> MockModel.get_receptive_field self verbose w = Some (7, [3; 7])
  ∧ MockModel.accumulated_stride ∘ fst
      <$> MockModel.receptive_field_run self verbose w = Some 2.
Proof.
  intros Hls. by rewrite get_receptive_field_eq, receptive_field_run_eq, Hls.
Qed.

Lemma get_receptive_field_stride_two_witness :
  heap (store_of [MockLayer.__init__ 3 2 1 None; MockLayer.__init__ 3 1 1 None])
    !! MockModel.layers model_1
    = Some [MockLayer.__init__ 3 2 1 None; MockLayer.__init__ 3 1 1 None]
  ∧ fst <$> MockModel.get_receptive_field model_1 false
              (store_of [MockLayer.__init__ 3 2 1 None;
                         MockLayer.__init__ 3 1 1 None])
    = Some (7, [3; 7])
  ∧ MockModel.accumulated_stride ∘ fst
      <$> MockModel.receptive_field_run model_1 false
            (store_of [MockLayer.__init__ 3 2 1 None;
                       MockLayer.__init__ 3 1 1 None])
    = Some 2.
Proof.
  split; [reflexivity|].
  apply (get_receptive_field_stride_two model_1 false
           (store_of [MockLayer.__init__ 3 2 1 None;
                      MockLayer.__init__ 3 1 1 None]) None None).
  reflexivity.
Defined.

(** C8: [verbose] does not change what [get_receptive_field] returns.  With
    and without it the returned pair is the same and the store of lists is
    the same; without it the whole state is left as it was, with it the
    output stream grows by the lines of the loop and nothing else changes. *)
Theorem get_receptive_field_verbose_same (self : MockModel.t) (w : world) :
  fst <$> MockModel.get_receptive_field self true w
    = fst <$> MockModel.get_receptive_field self false w
  ∧ heap ∘ snd <$> MockModel.get_receptive_field self true w
    = heap ∘ snd <$> MockModel.get_receptive_field self false w
  ∧ snd <$> MockModel.get_receptive_field self false w
    = (λ _, w) <$> heap w !! MockModel.layers self
  ∧ stdout ∘ snd <$> MockModel.get_receptive_field self true w
    = (λ ls, stdout w ++ verbose_output true ls)
      <$> heap w !! MockModel.layers self.
Proof.
  rewrite !get_receptive_field_eq.
  destruct (heap w !! MockModel.layers self) as [ls|]; cbn; [|done].
  repeat split. destruct w as [h out]. cbn. by rewrite app_nil_r.
Qed.

(** C9: the receptive field returned is 1 plus the sum over the layers of
    [(k_i - 1) * d_i] times the product of the strides before layer [i];
    entry [i] of the list (from 0) is the same sum cut after layer [i]; and
    a model whose layers have the same numeric fields, whatever the names,
    returns the same pair. *)
Theorem get_receptive_field_closed_form (self self' : MockModel.t)
    (verbose verbose' : bool) (w w' : world) (ls ls' : list MockLayer.t) :
  heap w !! MockModel.layers self = Some ls →
  heap w' !! MockModel.layers self' = Some ls' →
  numeric <$> ls' = numeric <$> ls →
  fst <$> MockModel.get_receptive_field self verbose w
    = Some (closed_form ls (length ls),
            (λ i, closed_form ls (S i)) <$> seq 0 (length ls))
  ∧ fst <$> MockModel.get_receptive_field self' verbose' w'
    = fst <$> MockModel.get_receptive_field self verbose w.
Proof.
  intros Hls Hls' Hnum.
  assert (∀ k, spec_receptive_field k
               = (closed_form k (length k),
                  (λ i, closed_form k (S i)) <$> seq 0 (length k))) as Hspec.
  { intros k. unfold spec_receptive_field. f_equal.
    - apply fold_layers_closed.
    - rewrite fold_all_seq. apply list_eq. intros i.
      rewrite !list_lookup_fmap.
      destruct (decide (i < length k)%nat).
      + rewrite lookup_seq_lt by done. cbn. f_equal.
        destruct (fold_layers_closed (take (S i) k)) as [-> _].
        rewrite length_take. replace (S i `min` length k)%nat with (S i) by lia.
        by apply closed_form_take.
      + by rewrite lookup_seq_ge by lia. }
  rewrite !get_receptive_field_eq, Hls, Hls'. cbn. rewrite !Hspec.
  split; [done|]. do 2 f_equal.
  - pose proof (f_equal length Hnum) as Hlen. rewrite !length_fmap in Hlen.
    rewrite Hlen. by apply closed_form_numeric.
  - pose proof (f_equal length Hnum) as Hlen. rewrite !length_fmap in Hlen.
    rewrite Hlen. apply list_fmap_ext. intros _ i _.
    by apply closed_form_numeric.
Qed.

Lemma get_receptive_field_closed_form_witness :
  heap (store_of sample_layers) !! MockModel.layers model_1
    = Some sample_layers
  ∧ heap (store_of renamed_layers) !! MockModel.layers model_1
    = Some renamed_layers
  ∧ numeric <$> renamed_layers = numeric <$> sample_layers
  ∧ fst <$> MockModel.get_receptive_field model_1 false
              (store_of sample_layers)
    = Some (closed_form sample_layers (length sample_layers),
            (λ i, closed_form sample_layers (S i))
            <$> seq 0 (length sample_layers))
  ∧ fst <$> MockModel.get_receptive_field model_1 true
              (store_of renamed_layers)
    = fst <$> MockModel.get_receptive_field model_1 false
                (store_of sample_layers).
Proof.
  split; [reflexivity|]. split; [reflexivity|]. split; [reflexivity|].
  apply (get_receptive_field_closed_form model_1 model_1 false true
           (store_of sample_layers) (store_of renamed_layers)
           sample_layers renamed_layers); reflexivity.
Defined.

Example closed_form_sample :
  closed_form sample_layers 3 = 1 + (3 - 1) * 1 + (3 - 1) * 1 * 2
                                + (2 - 1) * 1 * (2 * 1).
Proof. reflexivity. Qed.

(** C10: when every layer has kernel size, stride and dilation rate at least
    1, every iteration of the loop starts from a receptive field and an
    accumulated stride that are at least 1 and ends with values that are
    not smaller; hence the list returned is non-decreasing, each of its
    entries is at least 1, and so is the receptive field returned. *)
Theorem get_receptive_field_monotone (self : MockModel.t) (verbose : bool)
    (w : world) (ls : list MockLayer.t) :
  heap w !! MockModel.layers self = Some ls →
  Forall positive_layer ls →
  Forall (λ i, ∃ st st',
            loop_state verbose ls i w = Some st
            ∧ loop_state verbose ls (S i) w = Some st'
            ∧ 1 ≤ MockModel.output_receptive_field st
                ≤ MockModel.output_receptive_field st'
            ∧ 1 ≤ MockModel.accumulated_stride st
                ≤ MockModel.accumulated_stride st')
    (seq 0 (length ls))
  ∧ ∃ r, fst <$> MockModel.get_receptive_field self verbose w = Some r
      ∧ 1 ≤ r.1
      ∧ Forall (λ z, 1 ≤ z) r.2
      ∧ StronglySorted Z.le r.2.
Proof.
  intros Hls Hpos. split.
  - apply Forall_seq. intros i [_ Hi]. cbn in Hi.
    destruct (lookup_lt_is_Some_2 ls i Hi) as [x Hx].
    exists (fold_layers (take i ls)), (fold_layers (take (S i) ls)).
    assert (∀ j, loop_state verbose ls j w = Some (fold_layers (take j ls)))
      as Hstate.
    { intros j. unfold loop_state. rewrite receptive_field_loop_spec. cbn.
      by rewrite fmap_take, enumerate_snd. }
    rewrite !Hstate. split; [done|]. split; [done|].
    rewrite (take_S_r ls i x Hx), fold_layers_snoc.
    assert (Forall positive_layer (take i ls)) as Hpre by by apply Forall_take.
    assert (positive_layer x) as Hpx.
    { eapply Forall_lookup_1; [exact Hpos|exact Hx]. }
    destruct (fold_layers_bounds _ Hpre) as (Hr & Ha & _).
    destruct (fold_step_monotone _ x Hpx Hr Ha). lia.
  - exists (spec_receptive_field ls).
    rewrite get_receptive_field_eq, Hls. split; [done|].
    destruct (fold_layers_bounds ls Hpos) as (Hr & _ & Hall).
    split; [exact Hr|]. split; [|by apply fold_layers_sorted].
    eapply Forall_impl; [exact Hall|]. intros z Hz. cbv beta in Hz. lia.
Qed.

Lemma get_receptive_field_monotone_witness :
  heap (store_of sample_layers) !! MockModel.layers model_1
    = Some sample_layers
  ∧ Forall positive_layer sample_layers
  ∧ Forall (λ i, ∃ st st',
              loop_state false sample_layers i (store_of sample_layers)
                = Some st
              ∧ loop_state false sample_layers (S i) (store_of sample_layers)
                = Some st'
              ∧ 1 ≤ MockModel.output_receptive_field st
                  ≤ MockModel.output_receptive_field st'
              ∧ 1 ≤ MockModel.accumulated_stride st
                  ≤ MockModel.accumulated_stride st')
      (seq 0 (length sample_layers))
  ∧ ∃ r, fst <$> MockModel.get_receptive_field model_1 false
                   (store_of sample_layers) = Some r
      ∧ 1 ≤ r.1
      ∧ Forall (λ z, 1 ≤ z) r.2
      ∧ StronglySorted Z.le r.2.
Proof.
  assert (Forall positive_layer sample_layers) as Hpos.
  { repeat constructor; cbn; lia. }
  split; [reflexivity|]. split; [exact Hpos|].
  apply (get_receptive_field_monotone model_1 false (store_of sample_layers)
           sample_layers); [reflexivity|exact Hpos].
Defined.

(** ** Building and flattening *)

(** C6: for a sequence of layers cut into consecutive blocks, adding the
    layers one at a time to a new model and adding the blocks in order
    (a block being a single layer, a sub-model grown with [add], or a
    sub-model made from a list) leave the same sequence in the model:
    the layers in their order. *)
Theorem add_blocks_same_layers (ls : list MockLayer.t) (ps : list piece)
    (w : world) :
  concat (piece_layers <$> ps) = ls →
  fst <$> flattened_after (build_one_by_one ls) w = Some ls
  ∧ fst <$> flattened_after (build_by_blocks ps) w = Some ls.
Proof.
  intros <-. unfold flattened_after. split.
  - destruct (build_one_by_one_spec (concat (piece_layers <$> ps)) w)
      as (g & w' & Hb & Hg & _).
    erewrite bind_Some by exact Hb. by erewrite flattened_spec.
  - destruct (build_by_blocks_spec ps w) as (g & w' & Hb & Hg).
    erewrite bind_Some by exact Hb. by erewrite flattened_spec.
Qed.

Lemma add_blocks_same_layers_witness :
  concat (piece_layers <$> [Grown [layer_A; layer_B]; Single layer_C])
    = [layer_A; layer_B; layer_C]
  ∧ fst <$> flattened_after (build_one_by_one [layer_A; layer_B; layer_C])
              (World ∅ [])
    = Some [layer_A; layer_B; layer_C]
  ∧ fst <$> flattened_after
              (build_by_blocks [Grown [layer_A; layer_B]; Single layer_C])
              (World ∅ [])
    = Some [layer_A; layer_B; layer_C].
Proof.
  split; [reflexivity|].
  apply (add_blocks_same_layers [layer_A; layer_B; layer_C]
           [Grown [layer_A; layer_B]; Single layer_C] (World ∅ [])).
  reflexivity.
Defined.

Example run_blocks :
  fst <$> flattened_after
            (build_by_blocks [Given [layer_A]; Grown []; Grown [layer_B];
                              Single layer_C]) (World ∅ [])
  = Some [layer_A; layer_B; layer_C].
Proof. vm_compute. reflexivity. Qed.

(** C7: two calls of [get_as_list] on a model in a row return the same
    list object, the model's [layers], and leave the state as it was; read
    one after the other, the two sequences are equal, both being the
    elements of [layers]. *)
Theorem get_as_list_idempotent (self : MockModel.t) (w : world) :
  twice (MockModel.get_as_list self) w
    = Some ((MockModel.layers self, MockModel.layers self), w)
  ∧ twice (flattened self) w
    = (λ ls, ((ls, ls), w)) <$> heap w !! MockModel.layers self.
Proof.
  split; [reflexivity|].
  unfold twice.
  destruct (heap w !! MockModel.layers self) as [ls|] eqn:Hls; cbn.
  - erewrite bind_Some by by apply flattened_spec.
    erewrite bind_Some by by apply flattened_spec.
    reflexivity.
  - apply bind_None. unfold flattened.
    erewrite bind_Some by reflexivity. unfold deref. by rewrite Hls.
Qed.

(** * Further properties *)

(** ** What [add] does to the store *)

Section add.
Implicit Types (g sub : MockModel.t) (w : world) (b : MockModel.block)
  (a bl : list MockLayer.t).

Lemma preserved_refl w : preserved w w.
Proof. by intros r _. Qed.

Lemma preserved_trans w1 w2 w3 :
  preserved w1 w2 → preserved w2 w3 → preserved w1 w3.
Proof.
  intros H12 H23 r Hr.
  assert (heap w2 !! r = heap w1 !! r) as E by by apply H12.
  rewrite H23; [done|]. by rewrite E.
Qed.

Lemma add_block_spec g b w a bl :
  heap w !! MockModel.layers g = Some a →
  block_contents w b = Some bl →
  ∃ w', MockModel.add g b w = Some (tt, w')
    ∧ heap w' !! MockModel.layers g = Some (a ++ bl)
    ∧ unchanged_except (MockModel.layers g) w w'
    ∧ stdout w' = stdout w.
Proof.
  intros Hg Hb. destruct b as [l|m]; cbn in Hb.
  - injection Hb as <-.
    pose proof (fresh_unused w) as Hf.
    set (r := fresh (dom (heap w))) in *.
    assert (r ≠ MockModel.layers g) as Hne by congruence.
    eexists. split; [|split; [|split]].
    + unfold MockModel.add. cbn.
      erewrite bind_Some by reflexivity.
      unfold extend. cbn. fold r.
      rewrite lookup_insert_ne, Hg, lookup_insert_eq by done. reflexivity.
    + cbn. by rewrite lookup_insert_eq.
    + intros r' Hr' Hne'. cbn.
      rewrite !lookup_insert_ne; [done| |done].
      intros ->. rewrite Hf in Hr'. by destruct Hr'.
    + reflexivity.
  - eexists. split; [|split; [|split]].
    + by apply add_model_spec.
    + cbn. by rewrite lookup_insert_eq.
    + intros r' _ Hne'. cbn. by rewrite lookup_insert_ne.
    + reflexivity.
Qed.

End add.

(** X1: [add] appends to the model's list exactly the elements that the
    block holds when it is added (the layer, or the sub-model's layers, or
    the model's own layers when it is added to itself), leaves every other
    list that existed as it was, and prints nothing. *)
Theorem add_appends_block (self : MockModel.t) (new_block : MockModel.block)
    (w : world) (a bl : list MockLayer.t) :
  heap w !! MockModel.layers self = Some a →
  block_contents w new_block = Some bl →
  ∃ w', MockModel.add self new_block w = Some (tt, w')
    ∧ fst <$> flattened self w' = Some (a ++ bl)
    ∧ unchanged_except (MockModel.layers self) w w'
    ∧ stdout w' = stdout w.
Proof.
  intros Hg Hb.
  destruct (add_block_spec self new_block w a bl Hg Hb)
    as (w' & Hadd & Hg' & Hfr & Hout).
  exists w'. split; [done|]. split; [|done].
  by erewrite flattened_spec.
Qed.

Lemma add_appends_block_witness :
  heap (store_of [layer_A; layer_B]) !! MockModel.layers model_1
    = Some [layer_A; layer_B]
  ∧ block_contents (store_of [layer_A; layer_B]) (MockModel.Model model_1)
    = Some [layer_A; layer_B]
  ∧ ∃ w', MockModel.add model_1 (MockModel.Model model_1)
            (store_of [layer_A; layer_B]) = Some (tt, w')
    ∧ fst <$> flattened model_1 w'
      = Some ([layer_A; layer_B] ++ [layer_A; layer_B])
    ∧ unchanged_except (MockModel.layers model_1)
        (store_of [layer_A; layer_B]) w'
    ∧ stdout w' = stdout (store_of [layer_A; layer_B]).
Proof.
  split; [reflexivity|]. split; [reflexivity|].
  apply (add_appends_block model_1 (MockModel.Model model_1)
           (store_of [layer_A; layer_B]) [layer_A; layer_B]
           [layer_A; layer_B]); reflexivity.
Defined.

(** X2: [add] copies the elements of a sub-model, it does not link to it:
    a layer added to the sub-model afterwards reaches the sub-model only. *)
Theorem add_copies_elements (self sub : MockModel.t) (l : MockLayer.t)
    (w : world) (a b : list MockLayer.t) :
  heap w !! MockModel.layers self = Some a →
  heap w !! MockModel.layers sub = Some b →
  MockModel.layers self ≠ MockModel.layers sub →
  fst <$> (MockModel.add self (MockModel.Model sub);;
           MockModel.add sub (MockModel.Layer l);;
           ls ← flattened self;
           ls' ← flattened sub;
           mret (ls, ls')) w
  = Some (a ++ b, b ++ [l]).
Proof.
  intros Hg Hs Hne.
  destruct (add_block_spec self (MockModel.Model sub) w a b Hg Hs)
    as (w1 & Hadd1 & Hg1 & Hfr1 & _).
  assert (heap w1 !! MockModel.layers sub = Some b) as Hs1.
  { rewrite Hfr1; [done|by rewrite Hs|congruence]. }
  destruct (add_block_spec sub (MockModel.Layer l) w1 b [l] Hs1 eq_refl)
    as (w2 & Hadd2 & Hs2 & Hfr2 & _).
  assert (heap w2 !! MockModel.layers self = Some (a ++ b)) as Hg2.
  { rewrite Hfr2; [done|by rewrite Hg1|done]. }
  erewrite bind_Some by exact Hadd1.
  erewrite bind_Some by exact Hadd2.
  erewrite bind_Some by by apply flattened_spec.
  erewrite bind_Some by by apply flattened_spec.
  reflexivity.
Qed.

Lemma add_copies_elements_witness :
  heap (store_of_two [layer_A] [layer_B])
    !! MockModel.layers model_1 = Some [layer_A]
  ∧ heap (store_of_two [layer_A] [layer_B])
      !! MockModel.layers model_2 = Some [layer_B]
  ∧ MockModel.layers model_1 ≠ MockModel.layers model_2
  ∧ fst <$> (MockModel.add model_1 (MockModel.Model model_2);;
             MockModel.add model_2 (MockModel.Layer layer_C);;
             ls ← flattened model_1;
             ls' ← flattened model_2;
             mret (ls, ls'))
              (store_of_two [layer_A] [layer_B])
    = Some ([layer_A] ++ [layer_B], [layer_B] ++ [layer_C]).
Proof.
  split; [reflexivity|]. split; [reflexivity|]. split; [discriminate|].
  apply (add_copies_elements model_1 model_2 layer_C
           (store_of_two [layer_A] [layer_B])
           [layer_A] [layer_B]); [reflexivity|reflexivity|discriminate].
Defined.

(** X3: [MockModel(initial_layer_list)] keeps the list it is given without
    copying it: two models made from one list share it, so a layer added
    through one is seen through the other and in the caller's list. *)
Theorem init_shares_given_list (r : ref) (l : MockLayer.t) (w : world)
    (a : list MockLayer.t) :
  heap w !! r = Some a →
  fst <$> (m1 ← MockModel.__init__ (Some r);
           m2 ← MockModel.__init__ (Some r);
           MockModel.add m1 (MockModel.Layer l);;
           ls ← flattened m2;
           ls' ← deref r;
           mret (ls, ls')) w
  = Some (a ++ [l], a ++ [l]).
Proof.
  intros Hr.
  destruct (add_block_spec (MockModel.Build r) (MockModel.Layer l) w a [l]
              Hr eq_refl) as (w1 & Hadd & Hr1 & _ & _).
  erewrite bind_Some by reflexivity.
  erewrite bind_Some by reflexivity.
  erewrite bind_Some by exact Hadd.
  erewrite bind_Some by by apply flattened_spec.
  erewrite bind_Some by (unfold deref; cbn in Hr1; by rewrite Hr1).
  reflexivity.
Qed.

Lemma init_shares_given_list_witness :
  heap (store_of [layer_A]) !! 1%positive = Some [layer_A]
  ∧ fst <$> (m1 ← MockModel.__init__ (Some 1%positive);
             m2 ← MockModel.__init__ (Some 1%positive);
             MockModel.add m1 (MockModel.Layer layer_B);;
             ls ← flattened m2;
             ls' ← deref 1%positive;
             mret (ls, ls')) (store_of [layer_A])
    = Some ([layer_A] ++ [layer_B], [layer_A] ++ [layer_B]).
Proof.
  split; [reflexivity|].
  apply (init_shares_given_list 1%positive layer_B (store_of [layer_A])
           [layer_A]).
  reflexivity.
Defined.

(** X4: two models made by [MockModel()] never share a list: each call
    makes a new empty one, so a layer added to the first leaves the second
    empty. *)
Theorem init_default_not_shared (l : MockLayer.t) (w : world) :
  fst <$> (m1 ← MockModel.__init__ None;
           m2 ← MockModel.__init__ None;
           MockModel.add m1 (MockModel.Layer l);;
           ls ← flattened m1;
           ls' ← flattened m2;
           mret (ls, ls')) w
  = Some ([l], []).
Proof.
  set (r1 := fresh (dom (heap w))).
  set (w1 := World (<[r1 := []]> (heap w)) (stdout w)).
  set (r2 := fresh (dom (heap w1))).
  set (w2 := World (<[r2 := []]> (heap w1)) (stdout w1)).
  assert (heap w1 !! r1 = Some []) as H1 by apply lookup_insert_eq.
  assert (r2 ≠ r1) as Hne.
  { intros E. pose proof (fresh_unused w1) as Hf. fold r2 in Hf.
    rewrite E, H1 in Hf. done. }
  assert (heap w2 !! r1 = Some []) as H21.
  { cbn. by rewrite lookup_insert_ne. }
  assert (heap w2 !! r2 = Some []) as H22 by apply lookup_insert_eq.
  destruct (add_block_spec (MockModel.Build r1) (MockModel.Layer l) w2 [] [l]
              H21 eq_refl) as (w3 & Hadd & H31 & Hfr & _).
  assert (heap w3 !! r2 = Some []) as H32.
  { rewrite Hfr; [done|by rewrite H22|done]. }
  erewrite (bind_Some _ _ w (MockModel.Build r1) w1) by reflexivity.
  erewrite (bind_Some _ _ w1 (MockModel.Build r2) w2) by reflexivity.
  erewrite bind_Some by exact Hadd.
  erewrite bind_Some by by apply flattened_spec.
  erewrite bind_Some by by apply flattened_spec.
  reflexivity.
Qed.

(** ** Names and printed lines *)

Lemma get_layer_names_eq self w :
  MockModel.get_layer_names self w
  = (λ ls : list MockLayer.t, (MockLayer.name <$> ls, w))
    <$> heap w !! MockModel.layers self.
Proof.
  unfold MockModel.get_layer_names.
  destruct (heap w !! MockModel.layers self) as [ls|] eqn:E; cbn.
  - by erewrite bind_Some by (unfold deref; rewrite E; reflexivity).
  - apply bind_None. unfold deref. by rewrite E.
Qed.

(** X5: [get_layer_names] returns the names in the order of the layers and
    changes nothing; after [add], the names of the block's layers follow
    the names that were there. *)
Theorem get_layer_names_after_add (self : MockModel.t)
    (new_block : MockModel.block) (w : world) (a bl : list MockLayer.t) :
  heap w !! MockModel.layers self = Some a →
  block_contents w new_block = Some bl →
  MockModel.get_layer_names self w = Some (MockLayer.name <$> a, w)
  ∧ fst <$> (MockModel.add self new_block;;
             MockModel.get_layer_names self) w
    = Some ((MockLayer.name <$> a) ++ (MockLayer.name <$> bl)).
Proof.
  intros Hg Hb. split.
  - by rewrite get_layer_names_eq, Hg.
  - destruct (add_block_spec self new_block w a bl Hg Hb)
      as (w' & Hadd & Hg' & _).
    erewrite bind_Some by exact Hadd.
    rewrite get_layer_names_eq, Hg'. cbn. by rewrite fmap_app.
Qed.

Lemma get_layer_names_after_add_witness :
  heap (store_of [layer_A; layer_B]) !! MockModel.layers model_1
    = Some [layer_A; layer_B]
  ∧ block_contents (store_of [layer_A; layer_B]) (MockModel.Layer layer_C)
    = Some [layer_C]
  ∧ MockModel.get_layer_names model_1 (store_of [layer_A; layer_B])
    = Some (MockLayer.name <$> [layer_A; layer_B],
            store_of [layer_A; layer_B])
  ∧ fst <$> (MockModel.add model_1 (MockModel.Layer layer_C);;
             MockModel.get_layer_names model_1) (store_of [layer_A; layer_B])
    = Some ((MockLayer.name <$> [layer_A; layer_B])
            ++ (MockLayer.name <$> [layer_C])).
Proof.
  split; [reflexivity|]. split; [reflexivity|].
  apply (get_layer_names_after_add model_1 (MockModel.Layer layer_C)
           (store_of [layer_A; layer_B]) [layer_A; layer_B] [layer_C]);
    reflexivity.
Defined.









(** ** Laws of the receptive field *)

Section laws.
Implicit Types (ls a b : list MockLayer.t) (x : MockLayer.t)
  (st : MockModel.locals).

Lemma fold_layers_stride ls :
  MockModel.accumulated_stride (fold_layers ls) = total_stride ls.
Proof. apply fold_layers_closed. Qed.

Lemma total_stride_snoc ls x :
  total_stride (ls ++ [x]) = total_stride ls * MockLayer.stride x.
Proof. unfold total_stride. rewrite fmap_app. cbn. apply prodZ_snoc. Qed.

Lemma fold_layers_app a b :
  MockModel.output_receptive_field (fold_layers (a ++ b))
    = shifted a (MockModel.output_receptive_field (fold_layers b))
  ∧ MockModel.accumulated_stride (fold_layers (a ++ b))
    = total_stride a * total_stride b
  ∧ MockModel.all_receptive_fields (fold_layers (a ++ b))
    = MockModel.all_receptive_fields (fold_layers a)
      ++ (shifted a <$> MockModel.all_receptive_fields (fold_layers b)).
Proof.
  induction b as [|x b (IHr & IHs & IHa)] using rev_ind.
  - rewrite app_nil_r. split; [|split].
    + unfold shifted. cbn. ring.
    + rewrite fold_layers_stride. change (total_stride []) with 1. ring.
    + cbn. by rewrite app_nil_r.
  - rewrite app_assoc, !fold_layers_snoc, !fold_step_all.
    assert (MockModel.output_receptive_field
              (fold_step (fold_layers (a ++ b)) x)
            = shifted a (MockModel.output_receptive_field
                           (fold_step (fold_layers b) x))) as Hr.
    { transitivity (kernel_extent x
                    * MockModel.accumulated_stride (fold_layers (a ++ b))
                    + MockModel.output_receptive_field (fold_layers (a ++ b)));
        [reflexivity|].
      rewrite IHr, IHs. unfold shifted.
      transitivity (MockModel.output_receptive_field (fold_layers a)
                    + total_stride a
                      * (kernel_extent x
                         * MockModel.accumulated_stride (fold_layers b)
                         + MockModel.output_receptive_field (fold_layers b)
                         - 1)); [|reflexivity].
      rewrite (fold_layers_stride b). ring. }
    split; [exact Hr|]. split.
    + transitivity (MockModel.accumulated_stride (fold_layers (a ++ b))
                    * MockLayer.stride x); [reflexivity|].
      rewrite IHs, total_stride_snoc. ring.
    + rewrite Hr, IHa, fmap_app. cbn. by rewrite <- app_assoc.
Qed.

Lemma fold_step_undilated st x :
  fold_step st (undilated x) = fold_step st x.
Proof.
  unfold fold_step, MockLayer.get_output_receptive_field. cbn.
  replace ((MockLayer.kernel_size x - 1) * MockLayer.dilation_rate x + 1 - 1)
    with ((MockLayer.kernel_size x - 1) * MockLayer.dilation_rate x) by lia.
  by rewrite Z.mul_1_r.
Qed.

Lemma fold_layers_undilated ls :
  fold_layers (undilated <$> ls) = fold_layers ls.
Proof.
  induction ls as [|x ls IH] using rev_ind; [done|].
  rewrite fmap_app. cbn [fmap list_fmap].
  by rewrite !fold_layers_snoc, IH, fold_step_undilated.
Qed.

Lemma fold_layers_pools ls :
  Forall default_pool ls →
  MockModel.output_receptive_field (fold_layers ls)
    = prodZ (MockLayer.kernel_size <$> ls)
  ∧ MockModel.accumulated_stride (fold_layers ls)
    = prodZ (MockLayer.kernel_size <$> ls).
Proof.
  induction ls as [|x ls IH] using rev_ind; intros Hp; [done|].
  rewrite Forall_app, Forall_singleton in Hp.
  destruct Hp as [Hls (p & name & ->)].
  destruct (IH Hls) as [IHr IHs].
  rewrite fold_layers_snoc, fmap_app. cbn [fmap list_fmap].
  rewrite prodZ_snoc. cbn. rewrite IHr, IHs. split; ring.
Qed.

Lemma fold_layers_unit_stride ls :
  Forall (λ x, MockLayer.stride x = 1) ls →
  MockModel.output_receptive_field (fold_layers ls)
    = 1 + sumZ (kernel_extent <$> ls)
  ∧ MockModel.accumulated_stride (fold_layers ls) = 1.
Proof.
  induction ls as [|x ls IH] using rev_ind; intros Hs; [done|].
  rewrite Forall_app, Forall_singleton in Hs. destruct Hs as [Hls Hx].
  destruct (IH Hls) as [IHr IHs].
  rewrite fold_layers_snoc, fmap_app. cbn [fmap list_fmap].
  rewrite sumZ_snoc. unfold kernel_extent at 2. cbn.
  rewrite IHr, IHs, Hx. split; lia.
Qed.

Lemma sumZ_permutation (l l' : list Z) : l ≡ₚ l' → sumZ l = sumZ l'.
Proof.
  unfold sumZ. induction 1; cbn in *; lia.
Qed.

Lemma fold_step_pointwise st x :
  pointwise x →
  MockModel.output_receptive_field (fold_step st x)
    = MockModel.output_receptive_field st
  ∧ MockModel.accumulated_stride (fold_step st x)
    = MockModel.accumulated_stride st.
Proof. intros [Hk Hs]. cbn. rewrite Hk, Hs. split; lia. Qed.

Lemma fold_layers_drop_pointwise ls :
  MockModel.output_receptive_field
    (fold_layers (filter (λ x, ¬ pointwise x) ls))
    = MockModel.output_receptive_field (fold_layers ls)
  ∧ MockModel.accumulated_stride
      (fold_layers (filter (λ x, ¬ pointwise x) ls))
    = MockModel.accumulated_stride (fold_layers ls).
Proof.
  induction ls as [|x ls [IHr IHs]] using rev_ind; [done|].
  rewrite filter_app, fold_layers_snoc.
  destruct (decide (pointwise x)) as [Hp|Hp].
  - rewrite filter_cons_False by tauto. rewrite filter_nil, app_nil_r.
    destruct (fold_step_pointwise (fold_layers ls) x Hp) as [-> ->]. done.
  - rewrite filter_cons_True by done. rewrite filter_nil.
    rewrite fold_layers_snoc. cbn. rewrite IHr, IHs. done.
Qed.

End laws.

(** X8: the receptive field composes under [add].  If a model with layers
    [a] has receptive field [ra] and a sub-model has receptive field [rb],
    then after the sub-model is added the receptive field is
    [ra + s * (rb - 1)], where [s] is the product of the strides of [a];
    the list returned is the old list followed by the sub-model's entries
    moved in the same way. *)
Theorem receptive_field_after_add (self sub : MockModel.t) (verbose : bool)
    (w : world) (a b : list MockLayer.t) :
  heap w !! MockModel.layers self = Some a →
  heap w !! MockModel.layers sub = Some b →
  ∃ ra alla rb allb,
    fst <$> MockModel.get_receptive_field self verbose w = Some (ra, alla)
    ∧ fst <$> MockModel.get_receptive_field sub verbose w = Some (rb, allb)
    ∧ fst <$> (MockModel.add self (MockModel.Model sub);;
               MockModel.get_receptive_field self verbose) w
      = Some (ra + total_stride a * (rb - 1),
              alla ++ ((λ z, ra + total_stride a * (z - 1)) <$> allb)).
Proof.
  intros Ha Hb.
  exists (MockModel.output_receptive_field (fold_layers a)),
    (MockModel.all_receptive_fields (fold_layers a)),
    (MockModel.output_receptive_field (fold_layers b)),
    (MockModel.all_receptive_fields (fold_layers b)).
  rewrite !get_receptive_field_eq, Ha, Hb.
  split; [done|]. split; [done|].
  destruct (add_block_spec self (MockModel.Model sub) w a b Ha Hb)
    as (w' & Hadd & Ha' & _).
  erewrite bind_Some by exact Hadd.
  rewrite get_receptive_field_eq, Ha'. cbn.
  destruct (fold_layers_app a b) as (Hr & _ & Hall).
  unfold spec_receptive_field. by rewrite Hr, Hall.
Qed.

Lemma receptive_field_after_add_witness :
  heap (store_of_two [layer_A; layer_C] [layer_B; layer_A])
    !! MockModel.layers model_1 = Some [layer_A; layer_C]
  ∧ heap (store_of_two [layer_A; layer_C] [layer_B; layer_A])
      !! MockModel.layers model_2 = Some [layer_B; layer_A]
  ∧ ∃ ra alla rb allb,
      fst <$> MockModel.get_receptive_field model_1 false
                (store_of_two [layer_A; layer_C] [layer_B; layer_A])
        = Some (ra, alla)
      ∧ fst <$> MockModel.get_receptive_field model_2 false
                  (store_of_two [layer_A; layer_C] [layer_B; layer_A])
        = Some (rb, allb)
      ∧ fst <$> (MockModel.add model_1 (MockModel.Model model_2);;
                 MockModel.get_receptive_field model_1 false)
                  (store_of_two [layer_A; layer_C] [layer_B; layer_A])
        = Some (ra + total_stride [layer_A; layer_C] * (rb - 1),
                alla ++ ((λ z, ra + total_stride [layer_A; layer_C] * (z - 1))
                         <$> allb)).
Proof.
  split; [reflexivity|]. split; [reflexivity|].
  apply (receptive_field_after_add model_1 model_2 false
           (store_of_two [layer_A; layer_C] [layer_B; layer_A])
           [layer_A; layer_C] [layer_B; layer_A]); reflexivity.
Defined.

Example run_after_add :
  fst <$> (MockModel.add model_1 (MockModel.Model model_2);;
           MockModel.get_receptive_field model_1 false)
            (store_of_two [layer_A; layer_C] [layer_B; layer_A])
  = Some (5 + 4 * (5 - 1), [3; 5; 13; 21]).
Proof. vm_compute. reflexivity. Qed.

(** X9: the accumulated stride is the product of the strides of the layers
    gone through: after [i] iterations of the loop, of the first [i]
    layers, and at the end of the loop, of all of them. *)
Theorem accumulated_stride_is_product (self : MockModel.t) (verbose : bool)
    (w : world) (ls : list MockLayer.t) :
  heap w !! MockModel.layers self = Some ls →
  MockModel.accumulated_stride ∘ fst
    <$> MockModel.receptive_field_run self verbose w
  = Some (prodZ (MockLayer.stride <$> ls))
  ∧ ∀ i, MockModel.accumulated_stride <$> loop_state verbose ls i w
         = Some (prodZ (MockLayer.stride <$> take i ls)).
Proof.
  intros Hls. split.
  - rewrite receptive_field_run_eq, Hls. cbn. f_equal.
    apply fold_layers_stride.
  - intros i. unfold loop_state. rewrite receptive_field_loop_spec. cbn.
    rewrite fmap_take, enumerate_snd. f_equal.
    apply (fold_layers_stride (take i ls)).
Qed.

Lemma accumulated_stride_is_product_witness :
  heap (store_of sample_layers) !! MockModel.layers model_1
    = Some sample_layers
  ∧ MockModel.accumulated_stride ∘ fst
      <$> MockModel.receptive_field_run model_1 false (store_of sample_layers)
    = Some (prodZ (MockLayer.stride <$> sample_layers))
  ∧ ∀ i, MockModel.accumulated_stride
           <$> loop_state false sample_layers i (store_of sample_layers)
         = Some (prodZ (MockLayer.stride <$> take i sample_layers)).
Proof.
  split; [reflexivity|].
  apply (accumulated_stride_is_product model_1 false (store_of sample_layers)
           sample_layers).
  reflexivity.
Defined.

(** X10: a dilated layer counts as an undilated one with kernel size
    [(k - 1) * d + 1]: replacing every layer in this way changes nothing in
    what [get_receptive_field] returns. *)
Theorem undilated_same_receptive_field (self self' : MockModel.t)
    (verbose verbose' : bool) (w w' : world) (ls : list MockLayer.t) :
  heap w !! MockModel.layers self = Some ls →
  heap w' !! MockModel.layers self' = Some (undilated <$> ls) →
  fst <$> MockModel.get_receptive_field self' verbose' w'
  = fst <$> MockModel.get_receptive_field self verbose w.
Proof.
  intros Hls Hls'. rewrite !get_receptive_field_eq, Hls, Hls'. cbn.
  unfold spec_receptive_field. by rewrite fold_layers_undilated.
Qed.

Lemma undilated_same_receptive_field_witness :
  heap (store_of_two [MockConv 3 (Some 2) (Some 4) None; layer_B]
          (undilated <$> [MockConv 3 (Some 2) (Some 4) None; layer_B]))
    !! MockModel.layers model_1
    = Some [MockConv 3 (Some 2) (Some 4) None; layer_B]
  ∧ heap (store_of_two [MockConv 3 (Some 2) (Some 4) None; layer_B]
            (undilated <$> [MockConv 3 (Some 2) (Some 4) None; layer_B]))
      !! MockModel.layers model_2
    = Some (undilated <$> [MockConv 3 (Some 2) (Some 4) None; layer_B])
  ∧ fst <$> MockModel.get_receptive_field model_2 false
              (store_of_two [MockConv 3 (Some 2) (Some 4) None; layer_B]
                 (undilated <$> [MockConv 3 (Some 2) (Some 4) None; layer_B]))
    = fst <$> MockModel.get_receptive_field model_1 false
                (store_of_two [MockConv 3 (Some 2) (Some 4) None; layer_B]
                   (undilated
                    <$> [MockConv 3 (Some 2) (Some 4) None; layer_B])).
Proof.
  split; [reflexivity|]. split; [reflexivity|].
  apply (undilated_same_receptive_field model_1 model_2 false false
           (store_of_two [MockConv 3 (Some 2) (Some 4) None; layer_B]
              (undilated <$> [MockConv 3 (Some 2) (Some 4) None; layer_B]))
           (store_of_two [MockConv 3 (Some 2) (Some 4) None; layer_B]
              (undilated <$> [MockConv 3 (Some 2) (Some 4) None; layer_B]))
           [MockConv 3 (Some 2) (Some 4) None; layer_B]); reflexivity.
Defined.

(** X11: for layers all made by [MockPool(pool_size)] with no stride
    given, the receptive field is the product of the pool sizes, and each
    entry of the list is the product of the pool sizes so far. *)
Theorem pools_receptive_field (self : MockModel.t) (verbose : bool)
    (w : world) (ls : list MockLayer.t) :
  heap w !! MockModel.layers self = Some ls →
  Forall default_pool ls →
  fst <$> MockModel.get_receptive_field self verbose w
  = Some (prodZ (MockLayer.kernel_size <$> ls),
          (λ i, prodZ (MockLayer.kernel_size <$> take (S i) ls))
          <$> seq 0 (length ls)).
Proof.
  intros Hls Hp. rewrite get_receptive_field_eq, Hls. cbn.
  unfold spec_receptive_field. do 2 f_equal.
  - by apply fold_layers_pools.
  - rewrite fold_all_seq. apply list_fmap_ext. intros _ i _.
    apply fold_layers_pools. by apply Forall_take.
Qed.

Lemma pools_receptive_field_witness :
  heap (store_of [MockPool 2 None None; MockPool 3 None (Some "p")])
    !! MockModel.layers model_1
    = Some [MockPool 2 None None; MockPool 3 None (Some "p")]
  ∧ Forall default_pool [MockPool 2 None None; MockPool 3 None (Some "p")]
  ∧ fst <$> MockModel.get_receptive_field model_1 false
              (store_of [MockPool 2 None None; MockPool 3 None (Some "p")])
    = Some (prodZ (MockLayer.kernel_size
                   <$> [MockPool 2 None None; MockPool 3 None (Some "p")]),
            (λ i, prodZ (MockLayer.kernel_size
                         <$> take (S i) [MockPool 2 None None;
                                         MockPool 3 None (Some "p")]))
            <$> seq 0 (length [MockPool 2 None None;
                               MockPool 3 None (Some "p")])).
Proof.
  assert (Forall default_pool
            [MockPool 2 None None; MockPool 3 None (Some "p")]) as Hp.
  { repeat constructor; unfold default_pool; eauto. }
  split; [reflexivity|]. split; [exact Hp|].
  apply (pools_receptive_field model_1 false
           (store_of [MockPool 2 None None; MockPool 3 None (Some "p")])
           [MockPool 2 None None; MockPool 3 None (Some "p")]);
    [reflexivity|exact Hp].
Defined.

(** X12: where every layer has stride 1, the receptive field is 1 plus the
    sum of [(k - 1) * d] over the layers, and it stays the same when the
    layers are put in another order. *)
Theorem unit_stride_receptive_field (self self' : MockModel.t)
    (verbose verbose' : bool) (w w' : world) (ls ls' : list MockLayer.t) :
  heap w !! MockModel.layers self = Some ls →
  heap w' !! MockModel.layers self' = Some ls' →
  Forall (λ x, MockLayer.stride x = 1) ls →
  ls ≡ₚ ls' →
  fst ∘ fst <$> MockModel.get_receptive_field self verbose w
    = Some (1 + sumZ (kernel_extent <$> ls))
  ∧ fst ∘ fst <$> MockModel.get_receptive_field self' verbose' w'
    = Some (1 + sumZ (kernel_extent <$> ls)).
Proof.
  intros Hls Hls' Hs Hperm.
  rewrite !get_receptive_field_eq, Hls, Hls'. cbn. split; f_equal.
  - by apply fold_layers_unit_stride.
  - assert (Forall (λ x, MockLayer.stride x = 1) ls') as Hs'
      by by rewrite <- Hperm.
    destruct (fold_layers_unit_stride ls' Hs') as [-> _]. f_equal.
    apply sumZ_permutation. by rewrite Hperm.
Qed.

Lemma unit_stride_receptive_field_witness :
  heap (store_of_two [layer_B; MockConv 5 None (Some 2) None]
          [MockConv 5 None (Some 2) None; layer_B])
    !! MockModel.layers model_1
    = Some [layer_B; MockConv 5 None (Some 2) None]
  ∧ heap (store_of_two [layer_B; MockConv 5 None (Some 2) None]
            [MockConv 5 None (Some 2) None; layer_B])
      !! MockModel.layers model_2
    = Some [MockConv 5 None (Some 2) None; layer_B]
  ∧ Forall (λ x, MockLayer.stride x = 1)
      [layer_B; MockConv 5 None (Some 2) None]
  ∧ [layer_B; MockConv 5 None (Some 2) None]
      ≡ₚ [MockConv 5 None (Some 2) None; layer_B]
  ∧ fst ∘ fst <$> MockModel.get_receptive_field model_1 false
                    (store_of_two [layer_B; MockConv 5 None (Some 2) None]
                       [MockConv 5 None (Some 2) None; layer_B])
    = Some (1 + sumZ (kernel_extent
                      <$> [layer_B; MockConv 5 None (Some 2) None]))
  ∧ fst ∘ fst <$> MockModel.get_receptive_field model_2 true
                    (store_of_two [layer_B; MockConv 5 None (Some 2) None]
                       [MockConv 5 None (Some 2) None; layer_B])
    = Some (1 + sumZ (kernel_extent
                      <$> [layer_B; MockConv 5 None (Some 2) None])).
Proof.
  assert (Forall (λ x, MockLayer.stride x = 1)
            [layer_B; MockConv 5 None (Some 2) None]) as Hs
    by (repeat constructor).
  assert ([layer_B; MockConv 5 None (Some 2) None]
            ≡ₚ [MockConv 5 None (Some 2) None; layer_B]) as Hperm
    by apply perm_swap.
  split; [reflexivity|]. split; [reflexivity|].
  split; [exact Hs|]. split; [exact Hperm|].
  apply (unit_stride_receptive_field model_1 model_2 false true
           (store_of_two [layer_B; MockConv 5 None (Some 2) None]
              [MockConv 5 None (Some 2) None; layer_B])
           (store_of_two [layer_B; MockConv 5 None (Some 2) None]
              [MockConv 5 None (Some 2) None; layer_B])
           [layer_B; MockConv 5 None (Some 2) None]
           [MockConv 5 None (Some 2) None; layer_B]);
    [reflexivity|reflexivity|exact Hs|exact Hperm].
Defined.

Lemma default_conv_fields x :
  default_conv x →
  MockLayer.stride x = 1 ∧ kernel_extent x = MockLayer.kernel_size x - 1.
Proof.
  intros (k & name & ->). unfold kernel_extent. cbn. split; lia.
Qed.

(** X13: for layers all made by [MockConv(kernel_size)] with no stride and
    no dilation rate given, the receptive field is 1 plus the sum of the
    kernel sizes minus one, and the accumulated stride stays 1. *)
Theorem convs_receptive_field (self : MockModel.t) (verbose : bool)
    (w : world) (ls : list MockLayer.t) :
  heap w !! MockModel.layers self = Some ls →
  Forall default_conv ls →
  fst ∘ fst <$> MockModel.get_receptive_field self verbose w
    = Some (1 + sumZ ((λ x, MockLayer.kernel_size x - 1) <$> ls))
  ∧ MockModel.accumulated_stride ∘ fst
      <$> MockModel.receptive_field_run self verbose w
    = Some 1.
Proof.
  intros Hls Hc.
  assert (Forall (λ x, MockLayer.stride x = 1) ls) as Hs.
  { eapply Forall_impl; [exact Hc|]. intros x Hx.
    by apply default_conv_fields. }
  assert (kernel_extent <$> ls = (λ x, MockLayer.kernel_size x - 1) <$> ls)
    as Hext.
  { apply Forall_fmap_ext. eapply Forall_impl; [exact Hc|]. intros x Hx.
    by apply default_conv_fields. }
  destruct (fold_layers_unit_stride ls Hs) as [Hr Ha].
  rewrite get_receptive_field_eq, receptive_field_run_eq, Hls. cbn.
  by rewrite Hr, Ha, Hext.
Qed.

Lemma convs_receptive_field_witness :
  heap (store_of [MockConv 3 None None None; MockConv 5 None None (Some "c")])
    !! MockModel.layers model_1
    = Some [MockConv 3 None None None; MockConv 5 None None (Some "c")]
  ∧ Forall default_conv
      [MockConv 3 None None None; MockConv 5 None None (Some "c")]
  ∧ fst ∘ fst <$> MockModel.get_receptive_field model_1 false
                    (store_of [MockConv 3 None None None;
                               MockConv 5 None None (Some "c")])
    = Some (1 + sumZ ((λ x, MockLayer.kernel_size x - 1)
                      <$> [MockConv 3 None None None;
                           MockConv 5 None None (Some "c")]))
  ∧ MockModel.accumulated_stride ∘ fst
      <$> MockModel.receptive_field_run model_1 false
            (store_of [MockConv 3 None None None;
                       MockConv 5 None None (Some "c")])
    = Some 1.
Proof.
  assert (Forall default_conv
            [MockConv 3 None None None; MockConv 5 None None (Some "c")])
    as Hc.
  { repeat constructor; unfold default_conv; eauto. }
  split; [reflexivity|]. split; [exact Hc|].
  apply (convs_receptive_field model_1 false
           (store_of [MockConv 3 None None None;
                      MockConv 5 None None (Some "c")])
           [MockConv 3 None None None; MockConv 5 None None (Some "c")]);
    [reflexivity|exact Hc].
Defined.

(** X14: layers with kernel size 1 and stride 1 do not count: without them
    the receptive field returned and the accumulated stride are the same,
    whatever their dilation rate. *)
Theorem pointwise_layers_neutral (self self' : MockModel.t)
    (verbose verbose' : bool) (w w' : world) (ls : list MockLayer.t) :
  heap w !! MockModel.layers self = Some ls →
  heap w' !! MockModel.layers self'
    = Some (filter (λ x, ¬ pointwise x) ls) →
  fst ∘ fst <$> MockModel.get_receptive_field self' verbose' w'
    = fst ∘ fst <$> MockModel.get_receptive_field self verbose w
  ∧ MockModel.accumulated_stride ∘ fst
      <$> MockModel.receptive_field_run self' verbose' w'
    = MockModel.accumulated_stride ∘ fst
        <$> MockModel.receptive_field_run self verbose w.
Proof.
  intros Hls Hls'.
  rewrite !get_receptive_field_eq, !receptive_field_run_eq, Hls, Hls'. cbn.
  destruct (fold_layers_drop_pointwise ls) as [-> ->]. done.
Qed.

Lemma pointwise_layers_neutral_witness :
  heap (store_of_two [layer_A; MockConv 1 None (Some 3) None; layer_C]
          [layer_A; layer_C])
    !! MockModel.layers model_1
    = Some [layer_A; MockConv 1 None (Some 3) None; layer_C]
  ∧ heap (store_of_two [layer_A; MockConv 1 None (Some 3) None; layer_C]
            [layer_A; layer_C])
      !! MockModel.layers model_2
    = Some (filter (λ x, ¬ pointwise x)
              [layer_A; MockConv 1 None (Some 3) None; layer_C])
  ∧ fst ∘ fst <$> MockModel.get_receptive_field model_2 false
                    (store_of_two
                       [layer_A; MockConv 1 None (Some 3) None; layer_C]
                       [layer_A; layer_C])
    = fst ∘ fst <$> MockModel.get_receptive_field model_1 false
                      (store_of_two
                         [layer_A; MockConv 1 None (Some 3) None; layer_C]
                         [layer_A; layer_C])
  ∧ MockModel.accumulated_stride ∘ fst
      <$> MockModel.receptive_field_run model_2 false
            (store_of_two [layer_A; MockConv 1 None (Some 3) None; layer_C]
               [layer_A; layer_C])
    = MockModel.accumulated_stride ∘ fst
        <$> MockModel.receptive_field_run model_1 false
              (store_of_two [layer_A; MockConv 1 None (Some 3) None; layer_C]
                 [layer_A; layer_C]).
Proof.
  split; [reflexivity|]. split; [reflexivity|].
  apply (pointwise_layers_neutral model_1 model_2 false false
           (store_of_two [layer_A; MockConv 1 None (Some 3) None; layer_C]
              [layer_A; layer_C])
           (store_of_two [layer_A; MockConv 1 None (Some 3) None; layer_C]
              [layer_A; layer_C])
           [layer_A; MockConv 1 None (Some 3) None; layer_C]); reflexivity.
Defined.

(** ** Models nested to any depth *)

Lemma nest_ind (P : nest → Prop) :
  (∀ l, P (Leaf l)) →
  (∀ ts, Forall P ts → P (Group ts)) →
  ∀ t, P t.
Proof.
  intros HL HG. fix IH 1. intros [l|ts].
  - apply HL.
  - apply HG. induction ts as [|t ts IHts]; constructor.
    + apply IH.
    + exact IHts.
Qed.

Lemma add_children_spec g ts :
  Forall (λ t, ∀ w, built t w) ts →
  ∀ w a, heap w !! MockModel.layers g = Some a →
  ∃ w', add_children build_nest g ts w = Some (tt, w')
    ∧ heap w' !! MockModel.layers g
      = Some (a ++ concat (map nest_layers ts))
    ∧ unchanged_except (MockModel.layers g) w w'
    ∧ stdout w' = stdout w.
Proof.
  induction 1 as [|t ts Ht _ IH]; intros w a Hg.
  - exists w. cbn. rewrite app_nil_r. by repeat split.
  - destruct (Ht w) as (b & w1 & Hb & Hc & Hp1 & Ho1).
    assert (heap w1 !! MockModel.layers g = Some a) as Hg1.
    { rewrite Hp1; [done|by rewrite Hg]. }
    destruct (add_block_spec g b w1 a _ Hg1 Hc)
      as (w2 & Hadd & Hg2 & Hfr2 & Ho2).
    destruct (IH w2 _ Hg2) as (w3 & Hrest & Hg3 & Hfr3 & Ho3).
    exists w3. split; [|split; [|split]].
    + cbn [add_children]. erewrite bind_Some by exact Hb.
      erewrite bind_Some by exact Hadd. exact Hrest.
    + cbn. by rewrite Hg3, <- app_assoc.
    + intros r Hr Hne.
      assert (heap w1 !! r = heap w !! r) as E1 by by apply Hp1.
      assert (heap w2 !! r = heap w1 !! r) as E2.
      { apply Hfr2; [by rewrite E1|done]. }
      rewrite Hfr3; [congruence| |done]. by rewrite E2, E1.
    + congruence.
Qed.

Lemma build_model_spec ts w :
  Forall (λ t, ∀ w, built t w) ts →
  ∃ g w', build_model_with build_nest ts w = Some (g, w')
    ∧ heap w' !! MockModel.layers g = Some (concat (map nest_layers ts))
    ∧ preserved w w'
    ∧ stdout w' = stdout w.
Proof.
  intros IH. pose proof (fresh_unused w) as Hf.
  set (r := fresh (dom (heap w))) in *.
  set (w0 := World (<[r := []]> (heap w)) (stdout w)).
  destruct (add_children_spec (MockModel.Build r) ts IH w0 [])
    as (w1 & Hadd & Hg & Hfr & Ho); [apply lookup_insert_eq|].
  exists (MockModel.Build r), w1.
  split; [|split; [|split]].
  - unfold build_model_with. erewrite bind_Some by reflexivity.
    erewrite bind_Some by exact Hadd. reflexivity.
  - exact Hg.
  - intros r' Hr'.
    assert (r' ≠ r) as Hne by (intros ->; rewrite Hf in Hr'; by destruct Hr').
    rewrite Hfr; cbn; [by rewrite lookup_insert_ne| |done].
    by rewrite lookup_insert_ne.
  - exact Ho.
Qed.

Lemma build_nest_spec t w : built t w.
Proof.
  revert w. induction t as [l|ts IH] using nest_ind; intros w.
  - exists (MockModel.Layer l), w. by repeat split.
  - destruct (build_model_spec ts w IH) as (g & w1 & Hb & Hg & Hp & Ho).
    exists (MockModel.Model g), w1. split; [|done].
    cbn [build_nest]. by erewrite bind_Some by exact Hb.
Qed.

(** X15: models nested to any depth flatten to their layers from left to
    right: a model built from any nest of layers and sub-models holds the
    same sequence as one to which these layers are added one at a time,
    and returns the same receptive fields; building it leaves the lists
    that existed as they were and prints nothing. *)
Theorem nested_models_flatten (ts : list nest) (verbose : bool) (w : world) :
  fst <$> flattened_after (build_model ts) w
    = Some (concat (map nest_layers ts))
  ∧ fst <$> flattened_after
              (build_one_by_one (concat (map nest_layers ts))) w
    = Some (concat (map nest_layers ts))
  ∧ fst <$> (g ← build_model ts;
             MockModel.get_receptive_field g verbose) w
    = fst <$> (g ← build_one_by_one (concat (map nest_layers ts));
               MockModel.get_receptive_field g verbose) w
  ∧ ∃ g w', build_model ts w = Some (g, w')
      ∧ preserved w w'
      ∧ stdout w' = stdout w.
Proof.
  assert (Forall (λ t, ∀ w, built t w) ts) as IH.
  { apply Forall_forall. intros t _ w0. apply build_nest_spec. }
  destruct (build_model_spec ts w IH) as (g & w1 & Hb & Hg & Hp & Ho).
  destruct (build_one_by_one_spec (concat (map nest_layers ts)) w)
    as (g' & w1' & Hb' & Hg' & _).
  unfold flattened_after, build_model.
  split; [|split; [|split]].
  - erewrite bind_Some by exact Hb. by erewrite flattened_spec.
  - erewrite bind_Some by exact Hb'. by erewrite flattened_spec.
  - erewrite bind_Some by exact Hb. erewrite bind_Some by exact Hb'.
    by rewrite !get_receptive_field_eq, Hg, Hg'.
  - by exists g, w1.
Qed.

Example run_nested :
  fst <$> flattened_after
            (build_model
               [Leaf layer_A;
                Group [Group [Leaf layer_B]; Group []; Leaf layer_C];
                Leaf layer_A]) (World ∅ [])
  = Some [layer_A; layer_B; layer_C; layer_A].
Proof. vm_compute. reflexivity. Qed.

(** ** Growth *)

Lemma StronglySorted_lt_snoc (l : list Z) (z : Z) :
  StronglySorted Z.lt l → Forall (λ y, y < z) l →
  StronglySorted Z.lt (l ++ [z]).
Proof.
  induction 1 as [|y l Hl IH Hy]; intros Hz; cbn.
  - repeat constructor.
  - apply Forall_cons in Hz as [Hyz Hz]. constructor; [by apply IH|].
    apply Forall_app. split; [done|]. by apply Forall_singleton.
Qed.

Lemma fold_layers_widening ls :
  Forall widening ls →
  Z.of_nat (length ls) + 1 ≤ MockModel.output_receptive_field (fold_layers ls)
  ∧ 1 ≤ MockModel.accumulated_stride (fold_layers ls)
  ∧ Forall (λ z, z ≤ MockModel.output_receptive_field (fold_layers ls))
      (MockModel.all_receptive_fields (fold_layers ls))
  ∧ StronglySorted Z.lt (MockModel.all_receptive_fields (fold_layers ls)).
Proof.
  induction ls as [|x ls IH] using rev_ind; intros Hw.
  - cbn. repeat split; try lia; constructor.
  - rewrite Forall_app, Forall_singleton in Hw.
    destruct Hw as [Hls (Hk & Hs & Hd)].
    destruct (IH Hls) as (Hr & Ha & Hall & Hsorted).
    rewrite fold_layers_snoc, fold_step_all.
    assert (MockModel.output_receptive_field (fold_layers ls)
            < MockModel.output_receptive_field
                (fold_step (fold_layers ls) x)) as Hlt by (cbn; nia).
    assert (1 ≤ MockModel.accumulated_stride (fold_step (fold_layers ls) x))
      as Ha' by (cbn; nia).
    rewrite length_app. cbn [length].
    split; [lia|]. split; [exact Ha'|]. split.
    + apply Forall_app. split.
      * eapply Forall_impl; [exact Hall|]. intros z Hz. cbv beta in *. lia.
      * apply Forall_singleton. lia.
    + apply StronglySorted_lt_snoc; [done|].
      eapply Forall_impl; [exact Hall|]. intros z Hz. cbv beta in *. lia.
Qed.

(** X16: where every layer has kernel size at least 2 and stride and
    dilation rate at least 1, each layer enlarges the receptive field: the
    list returned is strictly increasing, and the receptive field is more
    than the number of layers. *)
Theorem widening_layers_grow (self : MockModel.t) (verbose : bool)
    (w : world) (ls : list MockLayer.t) :
  heap w !! MockModel.layers self = Some ls →
  Forall widening ls →
  ∃ r, fst <$> MockModel.get_receptive_field self verbose w = Some r
    ∧ StronglySorted Z.lt r.2
    ∧ Z.of_nat (length ls) < r.1.
Proof.
  intros Hls Hw. exists (spec_receptive_field ls).
  rewrite get_receptive_field_eq, Hls. split; [done|].
  destruct (fold_layers_widening ls Hw) as (Hr & _ & _ & Hsorted).
  split; [exact Hsorted|]. cbn. lia.
Qed.

Lemma widening_layers_grow_witness :
  heap (store_of sample_layers) !! MockModel.layers model_1
    = Some sample_layers
  ∧ Forall widening sample_layers
  ∧ ∃ r, fst <$> MockModel.get_receptive_field model_1 false
                   (store_of sample_layers) = Some r
    ∧ StronglySorted Z.lt r.2
    ∧ Z.of_nat (length sample_layers) < r.1.
Proof.
  assert (Forall widening sample_layers) as Hw.
  { repeat constructor; cbn; lia. }
  split; [reflexivity|]. split; [exact Hw|].
  apply (widening_layers_grow model_1 false (store_of sample_layers)
           sample_layers); [reflexivity|exact Hw].
Defined.

(** X17: the stride of the last layer does not count: with any other
    stride there, [get_receptive_field] returns the same pair. *)
Theorem last_stride_irrelevant (self self' : MockModel.t)
    (verbose verbose' : bool) (w w' : world) (ls : list MockLayer.t)
    (x : MockLayer.t) (stride' : Z) :
  heap w !! MockModel.layers self = Some (ls ++ [x]) →
  heap w' !! MockModel.layers self' = Some (ls ++ [with_stride x stride']) →
  fst <$> MockModel.get_receptive_field self' verbose' w'
  = fst <$> MockModel.get_receptive_field self verbose w.
Proof.
  intros Hls Hls'. rewrite !get_receptive_field_eq, Hls, Hls'. cbn.
  unfold spec_receptive_field. by rewrite !fold_layers_snoc.
Qed.

Lemma last_stride_irrelevant_witness :
  heap (store_of_two ([layer_A] ++ [layer_B])
          ([layer_A] ++ [with_stride layer_B 7]))
    !! MockModel.layers model_1 = Some ([layer_A] ++ [layer_B])
  ∧ heap (store_of_two ([layer_A] ++ [layer_B])
            ([layer_A] ++ [with_stride layer_B 7]))
      !! MockModel.layers model_2
    = Some ([layer_A] ++ [with_stride layer_B 7])
  ∧ fst <$> MockModel.get_receptive_field model_2 false
              (store_of_two ([layer_A] ++ [layer_B])
                 ([layer_A] ++ [with_stride layer_B 7]))
    = fst <$> MockModel.get_receptive_field model_1 false
                (store_of_two ([layer_A] ++ [layer_B])
                   ([layer_A] ++ [with_stride layer_B 7])).
Proof.
  split; [reflexivity|]. split; [reflexivity|].
  apply (last_stride_irrelevant model_1 model_2 false false
           (store_of_two ([layer_A] ++ [layer_B])
              ([layer_A] ++ [with_stride layer_B 7]))
           (store_of_two ([layer_A] ++ [layer_B])
              ([layer_A] ++ [with_stride layer_B 7]))
           [layer_A] layer_B 7); reflexivity.
Defined.
